(** * mcp-dataretrieval: a shallow embedding of the dispatch layer

    The repository wraps the USGS [dataretrieval] library behind a
    function-calling protocol.  Three source files are embedded here:

    - [manual_mcp_dataretrieval.py]: the catalog, the dispatch table, the
      thirteen operations and the dispatcher ([Module Manual]);
    - [mcp_dataretrieval.py]: the tool-serving variant with its shared
      formatter [_format_dataframe_result] ([Module FastMCP]);
    - [example_agent.py]: the conversational driver ([Module Agent]).

    Python values are an inductive type, a [DataFrame] is a row count plus
    named columns, and the effects (the external data service, the language
    model, the conversation history) are threaded through a small state and
    exception monad that also records a trace of what was invoked.

    Modelling boundaries: Python [str] is a byte string; floating-point
    parameter values are not represented; [json.loads], [json.dumps], the
    [repr] of containers, the data service and the language model are
    oracles collected in [Env]. *)

From Stdlib Require Import String Ascii List ZArith Bool Arith Lia.
From Stdlib Require Import Numbers.DecimalString.
Import ListNotations.

Local Open Scope string_scope.
Local Open Scope list_scope.

(** ** Strings *)

Module PyStr.

(** [str.split(sep)] for a one-character separator: never returns the
    empty list, and the empty string splits into one empty field. *)
Fixpoint split (sep : ascii) (s : string) : list string :=
  match s with
  | EmptyString => [EmptyString]
  | String c s' =>
      if Ascii.eqb c sep then EmptyString :: split sep s'
      else match split sep s' with
           | [] => [String c EmptyString]
           | w :: ws => String c w :: ws
           end
  end.

Definition comma : ascii := ","%char.

(** [sep.join(l)] *)
Fixpoint join (sep : string) (l : list string) : string :=
  match l with
  | [] => EmptyString
  | [x] => x
  | x :: xs => x ++ sep ++ join sep xs
  end.

(** The characters for which [str.isspace] holds, as the bytes of their
    UTF-8 encoding: one byte for U+0009 to U+000D and U+001C to U+0020;
    two bytes for U+0085 and U+00A0; three bytes for U+1680, U+2000 to
    U+200A, U+2028, U+2029, U+202F, U+205F and U+3000. *)
Definition space1 (c : ascii) : bool :=
  let n := nat_of_ascii c in
  (Nat.leb 9 n && Nat.leb n 13) || (Nat.leb 28 n && Nat.leb n 32).

Definition space2 (c1 c2 : ascii) : bool :=
  let n1 := nat_of_ascii c1 in
  let n2 := nat_of_ascii c2 in
  Nat.eqb n1 194 && (Nat.eqb n2 133 || Nat.eqb n2 160).

Definition space3 (c1 c2 c3 : ascii) : bool :=
  let n1 := nat_of_ascii c1 in
  let n2 := nat_of_ascii c2 in
  let n3 := nat_of_ascii c3 in
  (Nat.eqb n1 225 && Nat.eqb n2 154 && Nat.eqb n3 128)
  || (Nat.eqb n1 226 && Nat.eqb n2 128
      && ((Nat.leb 128 n3 && Nat.leb n3 138)
          || Nat.eqb n3 168 || Nat.eqb n3 169 || Nat.eqb n3 175))
  || (Nat.eqb n1 226 && Nat.eqb n2 129 && Nat.eqb n3 159)
  || (Nat.eqb n1 227 && Nat.eqb n2 128 && Nat.eqb n3 128).

(** Dropping the leading characters that one-, two- and three-byte
    tests accept. *)
Fixpoint drop_leading (p1 : ascii -> bool) (p2 : ascii -> ascii -> bool)
    (p3 : ascii -> ascii -> ascii -> bool) (s : string) : string :=
  match s with
  | EmptyString => EmptyString
  | String c1 s1 =>
      if p1 c1 then drop_leading p1 p2 p3 s1
      else match s1 with
           | EmptyString => s
           | String c2 s2 =>
               if p2 c1 c2 then drop_leading p1 p2 p3 s2
               else match s2 with
                    | EmptyString => s
                    | String c3 s3 =>
                        if p3 c1 c2 c3 then drop_leading p1 p2 p3 s3 else s
                    end
           end
  end.

(** [s.lstrip()] *)
Definition lstrip (s : string) : string := drop_leading space1 space2 space3 s.

Fixpoint rev (s : string) : string :=
  match s with
  | EmptyString => EmptyString
  | String c s' => rev s' ++ String c EmptyString
  end.

(** [s.rstrip()]: the same from the end, where the bytes of a character
    come last byte first. *)
Definition rstrip (s : string) : string :=
  rev (drop_leading space1 (fun c2 c1 => space2 c1 c2)
         (fun c3 c2 c1 => space3 c1 c2 c3) (rev s)).

(** [s.strip()] *)
Definition strip (s : string) : string := rstrip (lstrip s).

Fixpoint skip (n : nat) (s : string) : string :=
  match n, s with
  | O, _ => s
  | S n', String _ s' => skip n' s'
  | S _, EmptyString => EmptyString
  end.

(** [partition pat s]: the text before and after the first occurrence of
    [pat] in [s], as [s.partition(pat)] finds it. *)
Fixpoint partition (pat s : string) : option (string * string) :=
  if String.prefix pat s then Some (EmptyString, skip (String.length pat) s)
  else match s with
       | EmptyString => None
       | String c s' =>
           match partition pat s' with
           | Some (before, after) => Some (String c before, after)
           | None => None
           end
       end.

(** [str(n)] for a length. *)
Definition of_nat (n : nat) : string := NilZero.string_of_uint (Nat.to_uint n).

(** [str(z)] for an integer. *)
Definition of_Z (z : Z) : string := NilZero.string_of_int (Z.to_int z).

End PyStr.

(** ** Python values *)

(** The values a parameter mapping or a decoded JSON document can hold.
    A dict keeps its insertion order, as Python's does. *)
#[local] Set Warnings "-register-all".
Inductive pyval : Type :=
| PNone
| PBool (b : bool)
| PInt (z : Z)
| PStr (s : string)
| PList (l : list pyval)
| PDict (d : list (string * pyval)).

Definition dict : Type := list (string * pyval).

Module Py.

Fixpoint lookup {A : Type} (k : string) (d : list (string * A)) : option A :=
  match d with
  | [] => None
  | (k', v) :: d' => if String.eqb k k' then Some v else lookup k d'
  end.

(** [d.get(k)] *)
Definition get (d : dict) (k : string) : pyval :=
  match lookup k d with
  | Some v => v
  | None => PNone
  end.

(** [d.get(k, default)] *)
Definition get_default (d : dict) (k : string) (default : pyval) : pyval :=
  match lookup k d with
  | Some v => v
  | None => default
  end.

(** [list(d.keys())] *)
Definition keys {A : Type} (d : list (string * A)) : list string := map fst d.

(** [bool(v)], the test behind [if v] and [not v]. *)
Definition truthy (v : pyval) : bool :=
  match v with
  | PNone => false
  | PBool b => b
  | PInt z => negb (Z.eqb z 0)
  | PStr s => negb (String.eqb s "")
  | PList l => match l with [] => false | _ :: _ => true end
  | PDict d => match d with [] => false | _ :: _ => true end
  end.

(** [all(l)] and [any(l)] *)
Definition all (l : list pyval) : bool := forallb truthy l.
Definition any (l : list pyval) : bool := existsb truthy l.

(** [isinstance(v, str)] *)
Definition is_str (v : pyval) : bool :=
  match v with
  | PStr _ => true
  | _ => false
  end.

(** [type(v).__name__] *)
Definition type_name (v : pyval) : string :=
  match v with
  | PNone => "NoneType"
  | PBool _ => "bool"
  | PInt _ => "int"
  | PStr _ => "str"
  | PList _ => "list"
  | PDict _ => "dict"
  end.

(** Lists and dicts cannot be dict keys. *)
Definition hashable (v : pyval) : bool :=
  match v with
  | PList _ | PDict _ => false
  | _ => true
  end.

(** [s.split(",")] as a Python list of strings. *)
Definition split_commas (s : string) : pyval :=
  PList (map PStr (PyStr.split PyStr.comma s)).

End Py.

(** ** Tables *)

(** A cell of a table: missing ([NaN] or [None]), a string, or a number. *)
Inductive cell : Type :=
| NA
| Text (s : string)
| Num (z : Z).

(** A [pandas.DataFrame]: the length of its index and its columns in
    order, each a label and one cell per row. *)
Record DataFrame : Type := mkFrame {
  nrows : nat;
  columns : list (string * list cell)
}.

Module Frame.

Definition sentinel : string := "-".

(** [pd.notna] on one cell. *)
Definition notna (v : cell) : bool :=
  match v with
  | NA => false
  | _ => true
  end.

(** One cell of [df != '-']: only the string ['-'] compares equal. *)
Definition ne_sentinel (v : cell) : bool :=
  match v with
  | Text s => negb (String.eqb s sentinel)
  | _ => true
  end.

(** Every column holds one cell per row. *)
Definition well_formed (df : DataFrame) : bool :=
  forallb (fun c => Nat.eqb (List.length (snd c)) (nrows df)) (columns df).

(** [df.empty]: some axis has length zero. *)
Definition empty (df : DataFrame) : bool :=
  Nat.eqb (nrows df) 0 || match columns df with [] => true | _ :: _ => false end.

(** [df.dropna(axis=1, how='all', inplace=True)]: a column stays when
    [notna(column).any()]. *)
Definition dropna_all (df : DataFrame) : DataFrame :=
  mkFrame (nrows df) (filter (fun c => existsb notna (snd c)) (columns df)).

(** [df.loc[:, (df != '-').any(axis=0)]] *)
Definition loc_any_ne_sentinel (df : DataFrame) : DataFrame :=
  mkFrame (nrows df) (filter (fun c => existsb ne_sentinel (snd c)) (columns df)).

(** [df.drop(labels, axis=1, errors='ignore', inplace=True)] *)
Definition drop (labels : list string) (df : DataFrame) : DataFrame :=
  mkFrame (nrows df)
          (filter (fun c => negb (existsb (String.eqb (fst c)) labels)) (columns df)).

(** The two cleaning statements every operation repeats. *)
Definition sanitize (df : DataFrame) : DataFrame :=
  loc_any_ne_sentinel (dropna_all df).

(** [df.columns.tolist()] *)
Definition columns_tolist (df : DataFrame) : list string := map fst (columns df).

(** Row [i] across the columns. *)
Definition row (df : DataFrame) (i : nat) : list cell :=
  map (fun c => nth i (snd c) NA) (columns df).

(** [df.values.tolist()]: one list per row, in index order. *)
Definition values_tolist (df : DataFrame) : list (list cell) :=
  map (row df) (seq 0 (nrows df)).

(** [len(df)] *)
Definition len (df : DataFrame) : nat := nrows df.

End Frame.

(** ** Envelopes, effects and the monad *)

(** The result envelope.  The source builds a dict and adds a key only
    when its value is not [None]; an absent key is [None] here. *)
Record envelope : Type := mkEnvelope {
  status : string;
  data : option (list (list cell));
  column_names : option (list string);
  message : option string;
  metadata : option pyval
}.

(** One call into [dataretrieval.nwis]: the function and its keyword
    arguments. *)
Record service_call : Type := mkCall {
  svc_function : string;
  svc_kwargs : dict
}.

(** What the data service answers: a table, or an exception with its
    text. *)
Inductive service_result : Type :=
| Table (df : DataFrame)
| Raises (text : string).

(** A conversation message of the driver. *)
Record chat_message : Type := mkMessage {
  role : string;
  content : string
}.

(** What the trace records: a dispatcher call, an operation body entered,
    a data-service call, a language-model call. *)
Inductive event : Type :=
| EvDispatch (function_name params : pyval)
| EvOperation (name : string) (params : pyval)
| EvService (c : service_call)
| EvModel (prompt : string).

Inductive exn : Type :=
| ServiceError (text : string)
| AttributeError (text : string)
| TypeError (text : string)
| ModelError (text : string).

(** [str(e)] *)
Definition exn_str (e : exn) : string :=
  match e with
  | ServiceError text | AttributeError text | TypeError text | ModelError text => text
  end.

(** The mutable state: the trace so far and the driver's history. *)
Record world : Type := mkWorld {
  trace : list event;
  messages : list chat_message
}.

Inductive outcome (A : Type) : Type :=
| Return (a : A)
| Raise (e : exn).

Arguments Return {A} a.
Arguments Raise {A} e.

(** A computation may read and extend the world and may raise. *)
Definition Py (A : Type) : Type := world -> outcome A * world.

Definition ret {A : Type} (a : A) : Py A := fun w => (Return a, w).

Definition raise {A : Type} (e : exn) : Py A := fun w => (Raise e, w).

Definition bind {A B : Type} (m : Py A) (k : A -> Py B) : Py B :=
  fun w =>
    match m w with
    | (Return a, w') => k a w'
    | (Raise e, w') => (Raise e, w')
    end.

(** [try: body  except Exception as e: handler e] *)
Definition try_except {A : Type} (body : Py A) (handler : exn -> Py A) : Py A :=
  fun w =>
    match body w with
    | (Return a, w') => (Return a, w')
    | (Raise e, w') => handler e w'
    end.

Definition emit (ev : event) : Py unit :=
  fun w => (Return tt, mkWorld (trace w ++ [ev]) (messages w)).

Declare Scope py_scope.
Delimit Scope py_scope with py.
Notation "x <- m ;; k" := (bind m (fun x => k))
  (at level 61, m at next level, right associativity) : py_scope.
Notation "m ;; k" := (bind m (fun _ => k))
  (at level 61, right associativity) : py_scope.

(** The interpreter and the data service, as far as the wrapper sees
    them.  [nwis] may answer differently as the trace grows. *)
Record Env : Type := mkEnv {
  nwis : list event -> service_call -> service_result;
  repr : pyval -> string
}.

Section Builtins.

Variable env : Env.

(** [str(v)] as an f-string placeholder renders it.  The [repr] of a
    container is the interpreter's. *)
Definition str (v : pyval) : string :=
  match v with
  | PNone => "None"
  | PBool true => "True"
  | PBool false => "False"
  | PInt z => PyStr.of_Z z
  | PStr s => s
  | PList _ | PDict _ => repr env v
  end.

(** [params.get(key)]: only a dict has [get]. *)
Definition py_get (params : pyval) (key : string) : Py pyval :=
  match params with
  | PDict d => ret (Py.get d key)
  | _ => raise (AttributeError
                  ("'" ++ Py.type_name params ++ "' object has no attribute 'get'"))
  end.

(** [params.get(key, default)] *)
Definition py_get_default (params : pyval) (key : string) (default : pyval) : Py pyval :=
  match params with
  | PDict d => ret (Py.get_default d key default)
  | _ => raise (AttributeError
                  ("'" ++ Py.type_name params ++ "' object has no attribute 'get'"))
  end.

(** Unpacking [params] as the keyword arguments of [nwis.f]: only a
    mapping unpacks (the wording of the error is CPython's). *)
Definition unpack (f : string) (params : pyval) : Py dict :=
  match params with
  | PDict d => ret d
  | _ => raise (TypeError
                  ("dataretrieval.nwis." ++ f ++ "() argument after ** must be a mapping, not "
                   ++ Py.type_name params))
  end.

(** A call of [nwis.f] with keyword arguments: recorded, then answered
    by the service. *)
Definition call_nwis (f : string) (kwargs : dict) : Py DataFrame :=
  fun w =>
    let c := mkCall f kwargs in
    let w' := mkWorld (trace w ++ [EvService c]) (messages w) in
    match nwis env (trace w) c with
    | Table df => (Return df, w')
    | Raises text => (Raise (ServiceError text), w')
    end.

End Builtins.

(** ** manual_mcp_dataretrieval.py *)

Module Manual.

Local Open Scope string_scope.
Local Open Scope py_scope.

(** *** The function catalog *)

Record property : Type := mkProperty {
  prop_name : string;
  prop_type : string;
  prop_description : string;
  prop_default : option string
}.

Record parameters_schema : Type := mkParameters {
  schema_type : string;
  properties : list property;
  required : option (list string)
}.

Record descriptor : Type := mkDescriptor {
  name : string;
  description : string;
  parameters : parameters_schema
}.

Definition get_mcp_functions : list descriptor :=
  [
    mkDescriptor "get_site_data"
      "Get information about a specific USGS water monitoring site"
      (mkParameters "object"
        [
        mkProperty "site_code" "string"
          "USGS site code (e.g., '09380000')" None
        ]
        (Some ["site_code"]));
    mkDescriptor "get_daily_values"
      "Get daily values of water data"
      (mkParameters "object"
        [
        mkProperty "site_code" "string"
          "USGS site code" None;
        mkProperty "parameter_code" "string"
          "USGS parameter code (e.g., '00060' for discharge)" None;
        mkProperty "statCd" "string"
          "USGS statistic code" None;
        mkProperty "start_date" "string"
          "Start date in YYYY-MM-DD format" None;
        mkProperty "end_date" "string"
          "End date in YYYY-MM-DD format" None
        ]
        (Some ["site_code"]));
    mkDescriptor "get_instantaneous_values"
      "Get instantaneous values of water data"
      (mkParameters "object"
        [
        mkProperty "site_code" "string"
          "USGS site code" None;
        mkProperty "parameter_code" "string"
          "USGS parameter code (e.g., '00060' for discharge)" None;
        mkProperty "start_date" "string"
          "Start date in YYYY-MM-DD format" None;
        mkProperty "end_date" "string"
          "End date in YYYY-MM-DD format" None
        ]
        (Some ["site_code"; "parameter_code"]));
    mkDescriptor "get_discharge_measurements"
      "Get discharge measurements from the waterdata service"
      (mkParameters "object"
        [
        mkProperty "sites" "string"
          "USGS site code(s)" None;
        mkProperty "start" "string"
          "Start date in YYYY-MM-DD format" None;
        mkProperty "end" "string"
          "End date in YYYY-MM-DD format" None
        ]
        (Some ["sites"]));
    mkDescriptor "get_discharge_peaks"
      "Get discharge peaks from the waterdata service"
      (mkParameters "object"
        [
        mkProperty "sites" "string"
          "USGS site code(s)" None;
        mkProperty "start" "string"
          "Start date in YYYY-MM-DD format" None;
        mkProperty "end" "string"
          "End date in YYYY-MM-DD format" None
        ]
        (Some ["sites"]));
    mkDescriptor "get_gwlevels"
      "Get groundwater levels from the waterdata service"
      (mkParameters "object"
        [
        mkProperty "sites" "string"
          "USGS site code(s)" None;
        mkProperty "start" "string"
          "Start date in YYYY-MM-DD format" None;
        mkProperty "end" "string"
          "End date in YYYY-MM-DD format" None
        ]
        (Some ["sites"]));
    mkDescriptor "get_ratings"
      "Get rating table for an active USGS streamgage"
      (mkParameters "object"
        [
        mkProperty "site" "string"
          "USGS site code" None;
        mkProperty "file_type" "string"
          "File type (base, corr, exsa)" (Some "base")
        ]
        (Some ["site"]));
    mkDescriptor "what_sites"
      "Search NWIS for sites within a region with specific data"
      (mkParameters "object"
        [
        mkProperty "stateCd" "string"
          "Two-letter state code (e.g., 'CA')" None;
        mkProperty "siteType" "string"
          "Type of site (e.g., 'ST' for stream)" None;
        mkProperty "county" "string"
          "County code" None;
        mkProperty "huc" "string"
          "Hydrologic Unit Code" None
        ]
        None);
    mkDescriptor "get_stats"
      "Get water services statistics information"
      (mkParameters "object"
        [
        mkProperty "sites" "string"
          "USGS site code(s)" None;
        mkProperty "parameterCd" "string"
          "USGS parameter code (e.g., '00060' for discharge)" None;
        mkProperty "statReportType" "string"
          "Type of statistical report" None;
        mkProperty "statTypeCd" "string"
          "Type of statistical data" None
        ]
        None);
    mkDescriptor "get_info"
      "Get site description information from NWIS"
      (mkParameters "object"
        [
        mkProperty "sites" "string"
          "USGS site code(s)" None;
        mkProperty "stateCd" "string"
          "Two-letter state code (e.g., 'CA')" None;
        mkProperty "huc" "string"
          "Hydrologic Unit Code(s)" None;
        mkProperty "bBox" "string"
          "Bounding box coordinates (minx,miny,maxx,maxy)" None;
        mkProperty "countyCd" "string"
          "County code(s)" None;
        mkProperty "startDt" "string"
          "Start date in YYYY-MM-DD format" None;
        mkProperty "endDt" "string"
          "End date in YYYY-MM-DD format" None;
        mkProperty "period" "string"
          "Period of record (e.g., 'P7D' for 7 days)" None;
        mkProperty "modifiedSince" "string"
          "Modified since date in YYYY-MM-DD format" None;
        mkProperty "parameterCd" "string"
          "USGS parameter code (e.g., '00060' for discharge)" None;
        mkProperty "siteType" "string"
          "Type of site (e.g., 'ST' for stream)" None;
        mkProperty "siteOutput" "string"
          "Site output format" None;
        mkProperty "seriesCatalogOutput" "string"
          "Series catalog output format" None
        ]
        None);
    mkDescriptor "get_pmcodes"
      "Get NWIS parameter codes"
      (mkParameters "object"
        [
        mkProperty "parameterCd" "string"
          "USGS parameter code" None
        ]
        None);
    mkDescriptor "get_water_use"
      "Get water use data from USGS (NWIS)"
      (mkParameters "object"
        [
        mkProperty "years" "string"
          "Years to retrieve data for" None;
        mkProperty "state" "string"
          "Two-letter state code (e.g., 'CA')" None;
        mkProperty "counties" "string"
          "County codes" None;
        mkProperty "categories" "string"
          "Water use categories" None
        ]
        None)
  ].

(** [status], then the optional fields in the order of the signature. *)
Definition _format_response (status : string)
    (column_names : option (list string)) (data : option (list (list cell)))
    (message : option string) (metadata : option pyval) : envelope :=
  mkEnvelope status data column_names message metadata.

(** An envelope that carries a message only. *)
Definition error_response (message : string) : envelope :=
  _format_response "error" None None (Some message) None.

Section Operations.

Variable env : Env.

Definition get_site_data (params : pyval) : Py envelope :=
  site_code <- py_get params "site_code" ;;
  if negb (Py.truthy site_code) then
    ret (_format_response "error" None None (Some "Site code is required") None)
  else
    try_except
      (site_info <- call_nwis env "get_record"
                      [("sites", site_code); ("service", PStr "site")] ;;
       let site_info := Frame.dropna_all site_info in
       let site_info := Frame.loc_any_ne_sentinel site_info in
       if negb (Frame.empty site_info) then
         let column_names := Frame.columns_tolist site_info in
         let data_values := Frame.values_tolist site_info in
         ret (_format_response "success" (Some column_names) (Some data_values)
                (Some ("Successfully retrieved data for site " ++ str env site_code))
                None)
       else
         ret (_format_response "error" None None
                (Some ("No data found for site " ++ str env site_code)) None))
      (fun e =>
         ret (_format_response "error" None None
                (Some ("Error retrieving site data: " ++ exn_str e)) None)).

Definition get_daily_values (params : pyval) : Py envelope :=
  site_code <- py_get params "site_code" ;;
  parameter_code <- py_get params "parameter_code" ;;
  statCd <- py_get params "statCd" ;;
  if negb (Py.truthy site_code) then
    ret (_format_response "error" None None (Some "site_code is required") None)
  else
    start_date <- py_get params "start_date" ;;
    end_date <- py_get params "end_date" ;;
    try_except
      (daily_data <- call_nwis env "get_dv"
                       [("sites", site_code); ("parameterCd", parameter_code);
                        ("statCd", statCd); ("start", start_date); ("end", end_date)] ;;
       let daily_data := Frame.dropna_all daily_data in
       let daily_data := Frame.loc_any_ne_sentinel daily_data in
       if negb (Frame.empty daily_data) then
         let column_names := Frame.columns_tolist daily_data in
         let data_values := Frame.values_tolist daily_data in
         ret (_format_response "success" (Some column_names) (Some data_values)
                (Some ("Successfully retrieved daily values for site " ++ str env site_code))
                None)
       else
         ret (_format_response "error" None None
                (Some "No daily values found for the specified parameters") None))
      (fun e =>
         ret (_format_response "error" None None
                (Some ("Error retrieving daily values: " ++ exn_str e)) None)).

Definition get_instantaneous_values (params : pyval) : Py envelope :=
  site_code <- py_get params "site_code" ;;
  parameter_code <- py_get params "parameter_code" ;;
  start_date <- py_get params "start_date" ;;
  end_date <- py_get params "end_date" ;;
  if negb (Py.all [site_code; parameter_code]) then
    ret (_format_response "error" None None
           (Some "site_code and parameter_code are both required") None)
  else
    try_except
      (iv_data <- call_nwis env "get_iv"
                    [("sites", site_code); ("parameterCd", parameter_code);
                     ("start", start_date); ("end", end_date)] ;;
       let iv_data := Frame.dropna_all iv_data in
       let iv_data := Frame.loc_any_ne_sentinel iv_data in
       if negb (Frame.empty iv_data) then
         let column_names := Frame.columns_tolist iv_data in
         let data_values := Frame.values_tolist iv_data in
         ret (_format_response "success" (Some column_names) (Some data_values)
                (Some ("Successfully retrieved instantaneous values for site "
                       ++ str env site_code))
                None)
       else
         ret (_format_response "error" None None
                (Some "No instantaneous values found for the specified parameters") None))
      (fun e =>
         ret (_format_response "error" None None
                (Some ("Error retrieving instantaneous values: " ++ exn_str e)) None)).

Definition get_discharge_measurements (params : pyval) : Py envelope :=
  sites <- py_get params "sites" ;;
  let sites := match sites with PStr s => Py.split_commas s | _ => sites end in
  if negb (Py.truthy sites) then
    ret (_format_response "error" None None (Some "Sites parameter is required") None)
  else
    start <- py_get params "start" ;;
    end_ <- py_get params "end" ;;
    try_except
      (df <- call_nwis env "get_discharge_measurements"
               [("sites", sites); ("start", start); ("end", end_)] ;;
       let df := Frame.dropna_all df in
       let df := Frame.loc_any_ne_sentinel df in
       let column_names := Frame.columns_tolist df in
       let data_values := Frame.values_tolist df in
       ret (_format_response "success" (Some column_names) (Some data_values)
              (Some ("Retrieved " ++ PyStr.of_nat (List.length data_values)
                     ++ " discharge measurements"))
              None))
      (fun e => ret (_format_response "error" None None (Some (exn_str e)) None)).

Definition get_discharge_peaks (params : pyval) : Py envelope :=
  sites <- py_get params "sites" ;;
  let sites := match sites with PStr s => Py.split_commas s | _ => sites end in
  if negb (Py.truthy sites) then
    ret (_format_response "error" None None (Some "Sites parameter is required") None)
  else
    start <- py_get params "start" ;;
    end_ <- py_get params "end" ;;
    try_except
      (df <- call_nwis env "get_discharge_peaks"
               [("sites", sites); ("start", start); ("end", end_)] ;;
       let df := Frame.dropna_all df in
       let df := Frame.loc_any_ne_sentinel df in
       let column_names := Frame.columns_tolist df in
       let data_values := Frame.values_tolist df in
       ret (_format_response "success" (Some column_names) (Some data_values)
              (Some ("Retrieved " ++ PyStr.of_nat (List.length data_values)
                     ++ " discharge peaks"))
              None))
      (fun e => ret (_format_response "error" None None (Some (exn_str e)) None)).

Definition get_gwlevels (params : pyval) : Py envelope :=
  sites <- py_get params "sites" ;;
  let sites := match sites with PStr s => Py.split_commas s | _ => sites end in
  if negb (Py.truthy sites) then
    ret (_format_response "error" None None (Some "Sites parameter is required") None)
  else
    start <- py_get params "start" ;;
    end_ <- py_get params "end" ;;
    try_except
      (df <- call_nwis env "get_gwlevels"
               [("sites", sites); ("start", start); ("end", end_)] ;;
       let df := Frame.dropna_all df in
       let df := Frame.loc_any_ne_sentinel df in
       let column_names := Frame.columns_tolist df in
       let data_values := Frame.values_tolist df in
       ret (_format_response "success" (Some column_names) (Some data_values)
              (Some ("Retrieved " ++ PyStr.of_nat (List.length data_values)
                     ++ " groundwater level records"))
              None))
      (fun e => ret (_format_response "error" None None (Some (exn_str e)) None)).

Definition get_info (params : pyval) : Py envelope :=
  sites <- py_get params "sites" ;;
  let sites := match sites with PStr s => Py.split_commas s | _ => sites end in
  stateCd <- py_get params "stateCd" ;;
  huc <- py_get params "huc" ;;
  bBox <- py_get params "bBox" ;;
  countyCd <- py_get params "countyCd" ;;
  startDt <- py_get params "startDt" ;;
  endDt <- py_get params "endDt" ;;
  period <- py_get params "period" ;;
  modifiedSince <- py_get params "modifiedSince" ;;
  parameterCd <- py_get params "parameterCd" ;;
  siteType <- py_get params "siteType" ;;
  siteOutput <- py_get params "siteOutput" ;;
  seriesCatalogOutput <- py_get params "seriesCatalogOutput" ;;
  if negb (Py.any [sites; stateCd; huc; bBox; countyCd; startDt; endDt; period;
                   modifiedSince; parameterCd; siteType]) then
    ret (_format_response "error" None None
           (Some "At least one of the parameters is required") None)
  else
    try_except
      (kwargs <- unpack "get_info" params ;;
       df <- call_nwis env "get_info" kwargs ;;
       let df := Frame.dropna_all df in
       let df := Frame.loc_any_ne_sentinel df in
       let column_names := Frame.columns_tolist df in
       let data_values := Frame.values_tolist df in
       ret (_format_response "success" (Some column_names) (Some data_values)
              (Some "Retrieved site information") None))
      (fun e => ret (_format_response "error" None None (Some (exn_str e)) None)).

Definition get_pmcodes (params : pyval) : Py envelope :=
  parameterCd <- py_get params "parameterCd" ;;
  if negb (Py.truthy parameterCd) then
    ret (_format_response "error" None None (Some "Parameter code is required") None)
  else
    try_except
      (df <- call_nwis env "get_pmcodes" [("parameterCd", parameterCd)] ;;
       let df := Frame.dropna_all df in
       let df := Frame.loc_any_ne_sentinel df in
       let column_names := Frame.columns_tolist df in
       let data_values := Frame.values_tolist df in
       ret (_format_response "success" (Some column_names) (Some data_values)
              (Some ("Retrieved " ++ PyStr.of_nat (List.length data_values)
                     ++ " parameter codes"))
              None))
      (fun e => ret (_format_response "error" None None (Some (exn_str e)) None)).

Definition get_ratings (params : pyval) : Py envelope :=
  site <- py_get params "site" ;;
  if negb (Py.truthy site) then
    ret (_format_response "error" None None (Some "Site parameter is required") None)
  else
    file_type <- py_get_default params "file_type" (PStr "base") ;;
    try_except
      (df <- call_nwis env "get_ratings" [("site", site); ("file_type", file_type)] ;;
       let df := Frame.dropna_all df in
       let df := Frame.loc_any_ne_sentinel df in
       let column_names := Frame.columns_tolist df in
       let data_values := Frame.values_tolist df in
       ret (_format_response "success" (Some column_names) (Some data_values)
              (Some ("Retrieved " ++ PyStr.of_nat (List.length data_values)
                     ++ " rating records for site " ++ str env site))
              None))
      (fun e => ret (_format_response "error" None None (Some (exn_str e)) None)).

Definition get_record (params : pyval) : Py envelope :=
  try_except
    (kwargs <- unpack "get_record" params ;;
     df <- call_nwis env "get_record" kwargs ;;
     let df := Frame.dropna_all df in
     let df := Frame.loc_any_ne_sentinel df in
     let column_names := Frame.columns_tolist df in
     let data_values := Frame.values_tolist df in
     ret (_format_response "success" (Some column_names) (Some data_values)
            (Some ("Retrieved " ++ PyStr.of_nat (List.length data_values) ++ " records"))
            None))
    (fun e => ret (_format_response "error" None None (Some (exn_str e)) None)).

Definition get_stats (params : pyval) : Py envelope :=
  sites <- py_get params "sites" ;;
  let sites := match sites with PStr s => Py.split_commas s | _ => sites end in
  parameterCd <- py_get params "parameterCd" ;;
  statReportType <- py_get params "statReportType" ;;
  statTypeCd <- py_get params "statTypeCd" ;;
  try_except
    (kwargs <- unpack "get_stats" params ;;
     df <- call_nwis env "get_stats" kwargs ;;
     let df := Frame.dropna_all df in
     let df := Frame.loc_any_ne_sentinel df in
     let column_names := Frame.columns_tolist df in
     let data_values := Frame.values_tolist df in
     ret (_format_response "success" (Some column_names) (Some data_values)
            (Some "Retrieved statistical data") None))
    (fun e => ret (_format_response "error" None None (Some (exn_str e)) None)).

Definition get_water_use (params : pyval) : Py envelope :=
  years <- py_get params "years" ;;
  let years :=
    if Py.truthy years && Py.is_str years
    then match years with PStr s => Py.split_commas s | _ => years end
    else years in
  state <- py_get params "state" ;;
  counties <- py_get params "counties" ;;
  categories <- py_get params "categories" ;;
  if negb (Py.any [years; state; counties; categories]) then
    ret (_format_response "error" None None
           (Some "At least one of the parameters is required") None)
  else
    try_except
      (kwargs <- unpack "get_water_use" params ;;
       df <- call_nwis env "get_water_use" kwargs ;;
       let df := Frame.drop ["state_cd"; "county_cd"] df in
       let df := Frame.dropna_all df in
       let df := Frame.loc_any_ne_sentinel df in
       let column_names := Frame.columns_tolist df in
       let data_values := Frame.values_tolist df in
       ret (_format_response "success" (Some column_names) (Some data_values)
              (Some "Retrieved water use data") None))
      (fun e => ret (_format_response "error" None None (Some (exn_str e)) None)).

Definition what_sites (params : pyval) : Py envelope :=
  try_except
    (kwargs <- unpack "what_sites" params ;;
     df <- call_nwis env "what_sites" kwargs ;;
     let df := Frame.dropna_all df in
     let df := Frame.loc_any_ne_sentinel df in
     let column_names := Frame.columns_tolist df in
     let data_values := Frame.values_tolist df in
     ret (_format_response "success" (Some column_names) (Some data_values)
            (Some ("Found " ++ PyStr.of_nat (List.length data_values)
                   ++ " sites matching the criteria"))
            None))
    (fun e => ret (_format_response "error" None None (Some (exn_str e)) None)).

(** [self.functions], in the order [__init__] fills it. *)
Definition functions : list (string * (pyval -> Py envelope)) :=
  [ ("get_site_data", get_site_data);
    ("get_daily_values", get_daily_values);
    ("get_instantaneous_values", get_instantaneous_values);
    ("get_discharge_measurements", get_discharge_measurements);
    ("get_discharge_peaks", get_discharge_peaks);
    ("get_gwlevels", get_gwlevels);
    ("get_info", get_info);
    ("get_pmcodes", get_pmcodes);
    ("get_ratings", get_ratings);
    ("get_record", get_record);
    ("get_stats", get_stats);
    ("get_water_use", get_water_use);
    ("what_sites", what_sites) ].

(** [function_name in self.functions]: hashing a list or a dict raises;
    no other non-string equals a key. *)
Definition lookup_function (function_name : pyval)
  : Py (option (pyval -> Py envelope)) :=
  match function_name with
  | PStr s => ret (Py.lookup s functions)
  | PList _ | PDict _ =>
      raise (TypeError ("unhashable type: '" ++ Py.type_name function_name ++ "'"))
  | _ => ret None
  end.

Definition call_function (function_name params : pyval) : Py envelope :=
  emit (EvDispatch function_name params) ;;
  found <- lookup_function function_name ;;
  match found with
  | Some operation =>
      emit (EvOperation (str env function_name) params) ;;
      operation params
  | None =>
      ret (_format_response "error" None None
             (Some ("Function '" ++ str env function_name
                    ++ "' not found. Available functions: "
                    ++ PyStr.join ", " (Py.keys functions)))
             None)
  end.

End Operations.

(** The context document of [format_mcp_context]. *)
Record mcp_context : Type := mkContext {
  ctx_functions : list descriptor;
  ctx_metadata : list (string * string);
  ctx_messages : option (list chat_message);
  ctx_retrievals : option (list pyval)
}.

Definition format_mcp_context (messages : option (list chat_message))
    (retrieval_results : option (list pyval)) : mcp_context :=
  mkContext
    get_mcp_functions
    [ ("source", "USGS Water Data");
      ("description",
       "Data retrieval interface for USGS water data through dataretrieval library");
      ("version", "1.0.0");
      ("documentation_url", "https://doi-usgs.github.io/dataretrieval/index.html") ]
    (match messages with
     | Some (_ :: _) => messages
     | _ => None
     end)
    (match retrieval_results with
     | Some (_ :: _) => retrieval_results
     | _ => None
     end).

End Manual.

(** ** mcp_dataretrieval.py *)

Module FastMCP.

Local Open Scope string_scope.
Local Open Scope py_scope.

Definition _format_dataframe_result (df : DataFrame) (message : string) : envelope :=
  let df := Frame.dropna_all df in
  let df := Frame.loc_any_ne_sentinel df in
  mkEnvelope "success"
             (Some (Frame.values_tolist df))
             (Some (Frame.columns_tolist df))
             (Some message)
             None.

(** The dict literal of the error returns: a status and a message. *)
Definition error_result (message : string) : envelope :=
  mkEnvelope "error" None None (Some message) None.

(** [sites.split(",") if isinstance(sites, str) else sites] *)
Definition sites_list_of (sites : pyval) : pyval :=
  match sites with
  | PStr s => Py.split_commas s
  | _ => sites
  end.

Section Tools.

Variable env : Env.

Definition get_site_data (site_code : pyval) : Py envelope :=
  try_except
    (site_info <- call_nwis env "get_record"
                    [("sites", site_code); ("service", PStr "site")] ;;
     if negb (Frame.empty site_info) then
       ret (_format_dataframe_result site_info
              ("Successfully retrieved data for site " ++ str env site_code))
     else
       ret (error_result ("No data found for site " ++ str env site_code)))
    (fun e => ret (error_result ("Error retrieving site data: " ++ exn_str e))).

Definition get_daily_values (site_code parameter_code statCd start_date end_date : pyval)
  : Py envelope :=
  try_except
    (daily_data <- call_nwis env "get_dv"
                     [("sites", site_code); ("parameterCd", parameter_code);
                      ("statCd", statCd); ("start", start_date); ("end", end_date)] ;;
     if negb (Frame.empty daily_data) then
       let result := _format_dataframe_result daily_data
                       ("Successfully retrieved daily values for site "
                        ++ str env site_code) in
       ret result
     else
       ret (error_result "No daily values found for the specified parameters"))
    (fun e => ret (error_result ("Error retrieving daily values: " ++ exn_str e))).

Definition get_instantaneous_values (site_code parameter_code start_date end_date : pyval)
  : Py envelope :=
  try_except
    (iv_data <- call_nwis env "get_iv"
                  [("sites", site_code); ("parameterCd", parameter_code);
                   ("start", start_date); ("end", end_date)] ;;
     if negb (Frame.empty iv_data) then
       let result := _format_dataframe_result iv_data
                       ("Successfully retrieved instantaneous values for site "
                        ++ str env site_code) in
       ret result
     else
       ret (error_result "No instantaneous values found for the specified parameters"))
    (fun e => ret (error_result ("Error retrieving instantaneous values: " ++ exn_str e))).

Definition get_discharge_measurements (sites start end_ : pyval) : Py envelope :=
  try_except
    (let sites_list := sites_list_of sites in
     df <- call_nwis env "get_discharge_measurements"
             [("sites", sites_list); ("start", start); ("end", end_)] ;;
     let result := _format_dataframe_result df
                     ("Retrieved " ++ PyStr.of_nat (Frame.len df)
                      ++ " discharge measurements") in
     ret result)
    (fun e => ret (error_result (exn_str e))).

Definition get_discharge_peaks (sites start end_ : pyval) : Py envelope :=
  try_except
    (let sites_list := sites_list_of sites in
     df <- call_nwis env "get_discharge_peaks"
             [("sites", sites_list); ("start", start); ("end", end_)] ;;
     let result := _format_dataframe_result df
                     ("Retrieved " ++ PyStr.of_nat (Frame.len df)
                      ++ " discharge peaks") in
     ret result)
    (fun e => ret (error_result (exn_str e))).

Definition get_gwlevels (sites start end_ : pyval) : Py envelope :=
  try_except
    (let sites_list := sites_list_of sites in
     df <- call_nwis env "get_gwlevels"
             [("sites", sites_list); ("start", start); ("end", end_)] ;;
     let result := _format_dataframe_result df
                     ("Retrieved " ++ PyStr.of_nat (Frame.len df)
                      ++ " groundwater level records") in
     ret result)
    (fun e => ret (error_result (exn_str e))).

Definition get_ratings (site file_type : pyval) : Py envelope :=
  try_except
    (df <- call_nwis env "get_ratings" [("site", site); ("file_type", file_type)] ;;
     let result := _format_dataframe_result df
                     ("Retrieved " ++ PyStr.of_nat (Frame.len df)
                      ++ " rating records for site " ++ str env site) in
     ret result)
    (fun e => ret (error_result (exn_str e))).

Definition what_sites (stateCd siteType county huc : pyval) : Py envelope :=
  try_except
    (let params : dict := [] in
     let params := if Py.truthy stateCd then (params ++ [("stateCd", stateCd)])%list else params in
     let params := if Py.truthy siteType then (params ++ [("siteType", siteType)])%list else params in
     let params := if Py.truthy county then (params ++ [("county", county)])%list else params in
     let params := if Py.truthy huc then (params ++ [("huc", huc)])%list else params in
     df <- call_nwis env "what_sites" params ;;
     let result := _format_dataframe_result df
                     ("Found " ++ PyStr.of_nat (Frame.len df)
                      ++ " sites matching the criteria") in
     ret result)
    (fun e => ret (error_result (exn_str e))).

End Tools.

End FastMCP.

(** ** example_agent.py *)

Module Agent.

Local Open Scope string_scope.
Local Open Scope py_scope.

(** What a call of the language model gives: the text of the reply, or
    an exception with its text. *)
Inductive model_result : Type :=
| Replies (text : string)
| Fails (text : string).

(** What the driver takes from outside: the language model's answer to
    a prompt, and the [json] module. *)
Record AgentEnv : Type := mkAgentEnv {
  model : list event -> string -> model_result;
  json_loads : string -> option pyval;
  json_dumps_context : Manual.mcp_context -> string;
  json_dumps_results : list (pyval * envelope) -> string
}.

Definition open_tag : string := "<function_call>".
Definition close_tag : string := "</function_call>".

(** [re.findall] of the lazy pattern between the two tags with
    [re.DOTALL]: the text from an opening tag to the first closing tag
    after it, then on from behind that closing tag.  Every match
    consumes both tags, so [fuel] beyond the length of the text is never
    used. *)
Fixpoint findall_fuel (fuel : nat) (text : string) : list string :=
  match fuel with
  | O => []
  | S fuel' =>
      match PyStr.partition open_tag text with
      | None => []
      | Some (_, inner) =>
          match PyStr.partition close_tag inner with
          | None => []
          | Some (captured, rest) => captured :: findall_fuel fuel' rest
          end
      end
  end.

Definition findall (text : string) : list string :=
  findall_fuel (String.length text) text.

Section Driver.

Variable env : Env.
Variable aenv : AgentEnv.

(** [self.client.messages.create(...).content[0].text]: recorded, then
    answered by the model; neither the call nor the access to the text
    is guarded, so a failure is raised to the caller. *)
Definition create_message (prompt : string) : Py string :=
  fun w =>
    let w' := mkWorld (trace w ++ [EvModel prompt]) (messages w) in
    match model aenv (trace w) prompt with
    | Replies text => (Return text, w')
    | Fails text => (Raise (ModelError text), w')
    end.

(** [self.messages.append(m)] *)
Definition messages_append (m : chat_message) : Py unit :=
  fun w => (Return tt, mkWorld (trace w) (messages w ++ [m])).

(** [self.messages] *)
Definition self_messages : Py (list chat_message) :=
  fun w => (Return (messages w), w).

Definition _create_prompt (query : string) (mcp_context : Manual.mcp_context) : string :=
  "
        You are an AI assistant that helps users access and analyze USGS water data.

        MCP CONTEXT:
        "
  ++ json_dumps_context aenv mcp_context
  ++ "

        INSTRUCTIONS:
        1. If you need to access water data, use the functions defined in the MCP context.
        2. Format function calls as JSON objects inside <function_call></function_call> tags.
        3. Explain to the user what you're doing and provide insights about the data.

        USER QUERY:
        "
  ++ query
  ++ "

        Your response:
        ".

Definition _create_prompt_with_results (query : string)
    (mcp_context : Manual.mcp_context) (results : list (pyval * envelope)) : string :=
  "
        You are an AI assistant that helps users access and analyze USGS water data.

        MCP CONTEXT:
        "
  ++ json_dumps_context aenv mcp_context
  ++ "

        FUNCTION CALL RESULTS:
        "
  ++ json_dumps_results aenv results
  ++ "

        INSTRUCTIONS:
        1. Based on the function call results, provide a helpful response to the user's query.
        2. Explain the data and provide insights where possible.
        3. If the data shows any interesting patterns or anomalies, point them out.
        4. If there were any errors in the function calls, explain them to the user.

        USER QUERY:
        "
  ++ query
  ++ "

        Your response:
        ".

(** The loop over the matches: a block that does not decode is skipped. *)
Fixpoint decode_matches (matches : list string) : list pyval :=
  match matches with
  | [] => []
  | m :: rest =>
      match json_loads aenv (PyStr.strip m) with
      | Some function_call => function_call :: decode_matches rest
      | None => decode_matches rest
      end
  end.

Definition _extract_function_calls (text : string) : list pyval :=
  decode_matches (findall text).

(** The loop over the extracted calls; an exception leaves it. *)
Fixpoint execute_calls (function_calls : list pyval) : Py (list (pyval * envelope)) :=
  match function_calls with
  | [] => ret []
  | call :: rest =>
      function_name <- py_get call "name" ;;
      params <- py_get_default call "parameters" (PDict []) ;;
      result <- Manual.call_function env function_name params ;;
      results <- execute_calls rest ;;
      ret ((function_name, result) :: results)
  end.

(** The context keeps a reference to [self.messages]; the history is not
    touched between building the context and the second prompt, so the
    list read here is the one both prompts print. *)
Definition process_query (query : string) : Py string :=
  messages_append (mkMessage "user" query) ;;
  history <- self_messages ;;
  let mcp_context := Manual.format_mcp_context (Some history) None in
  let prompt := _create_prompt query mcp_context in
  assistant_message <- create_message prompt ;;
  let function_calls := _extract_function_calls assistant_message in
  match function_calls with
  | _ :: _ =>
      results <- execute_calls function_calls ;;
      let prompt_with_results :=
        _create_prompt_with_results query mcp_context results in
      final_response <- create_message prompt_with_results ;;
      messages_append (mkMessage "assistant" final_response) ;;
      ret final_response
  | [] =>
      messages_append (mkMessage "assistant" assistant_message) ;;
      ret assistant_message
  end.

End Driver.

End Agent.

(** ** Vocabulary of the properties *)

Module Props.

Local Open Scope string_scope.

(** The cells of a row, or the labels, at the positions a mask keeps. *)
Fixpoint select {A : Type} (mask : list bool) (l : list A) : list A :=
  match mask, l with
  | b :: mask', x :: l' => if b then x :: select mask' l' else select mask' l'
  | _, _ => []
  end.

(** Which columns of a table the two cleaning statements keep. *)
Definition kept (df : DataFrame) : list bool :=
  map (fun c => existsb Frame.notna (snd c) && existsb Frame.ne_sentinel (snd c))
      (columns df).

(** A value that is neither missing nor the sentinel string. *)
Definition proper (v : cell) : bool := Frame.notna v && Frame.ne_sentinel v.


(** The world after one more data-service call. *)
Definition after_call (w : world) (c : service_call) : world :=
  mkWorld (trace w ++ [EvService c]) (messages w).

(** The operations whose success branch tests [df.empty]. *)
Definition emptiness_checked (env : Env) : list (string * (pyval -> Py envelope)) :=
  [ ("get_site_data", Manual.get_site_data env);
    ("get_daily_values", Manual.get_daily_values env);
    ("get_instantaneous_values", Manual.get_instantaneous_values env) ].

(** The operations that serialize whatever table comes back. *)
Definition emptiness_unchecked (env : Env) : list (string * (pyval -> Py envelope)) :=
  [ ("get_discharge_measurements", Manual.get_discharge_measurements env);
    ("get_discharge_peaks", Manual.get_discharge_peaks env);
    ("get_gwlevels", Manual.get_gwlevels env);
    ("get_info", Manual.get_info env);
    ("get_pmcodes", Manual.get_pmcodes env);
    ("get_ratings", Manual.get_ratings env);
    ("get_record", Manual.get_record env);
    ("get_stats", Manual.get_stats env);
    ("get_water_use", Manual.get_water_use env);
    ("what_sites", Manual.what_sites env) ].

(** The label an operation puts before the text of a caught exception. *)
Definition error_label (function_name : string) : string :=
  if String.eqb function_name "get_site_data" then "Error retrieving site data: "
  else if String.eqb function_name "get_daily_values" then "Error retrieving daily values: "
  else if String.eqb function_name "get_instantaneous_values"
       then "Error retrieving instantaneous values: "
  else "".

(** What a checked operation says when the table is empty. *)
Definition no_data_message (env : Env) (function_name : string) (d : dict) : string :=
  if String.eqb function_name "get_site_data"
  then "No data found for site " ++ str env (Py.get d "site_code")
  else if String.eqb function_name "get_daily_values"
       then "No daily values found for the specified parameters"
  else "No instantaneous values found for the specified parameters".

(** The operations that take one or more site identifiers as [sites]. *)
Definition sites_operations (env : Env) : list (string * (pyval -> Py envelope)) :=
  [ ("get_discharge_measurements", Manual.get_discharge_measurements env);
    ("get_discharge_peaks", Manual.get_discharge_peaks env);
    ("get_gwlevels", Manual.get_gwlevels env) ].

(** How many descriptors of the catalog carry a name. *)
Definition descriptor_count (function_name : string) : nat :=
  List.length (filter (fun d => String.eqb (Manual.name d) function_name)
                      Manual.get_mcp_functions).

(** [pre ++ part ++ post] for some [pre] and [post]. *)
Definition mentions (text part : string) : Prop :=
  exists pre post, text = pre ++ part ++ post.

Definition is_dispatch (ev : event) : bool :=
  match ev with
  | EvDispatch _ _ => true
  | _ => false
  end.

(** The dispatcher calls of a trace, in order. *)
Definition dispatches (t : list event) : list event := filter is_dispatch t.

(** The dispatcher call the driver makes for a decoded block. *)
Definition dispatch_of (call : pyval) : event :=
  match call with
  | PDict d => EvDispatch (Py.get d "name") (Py.get_default d "parameters" (PDict []))
  | _ => EvDispatch PNone PNone
  end.

(** A decoded block the driver can hand over: a JSON object whose name
    can be looked up and whose parameters, when given, are an object. *)
Definition well_shaped (call : pyval) : bool :=
  match call with
  | PDict d =>
      Py.hashable (Py.get d "name")
      && match Py.get_default d "parameters" (PDict []) with
         | PDict _ => true
         | _ => false
         end
  | _ => false
  end.

(** The history, the first prompt and the model's first answer when the
    driver takes up a query in world [w]. *)
Definition first_history (query : string) (w : world) : list chat_message :=
  messages w ++ [mkMessage "user" query].

Definition first_context (query : string) (w : world) : Manual.mcp_context :=
  Manual.format_mcp_context (Some (first_history query w)) None.

Definition first_prompt (aenv : Agent.AgentEnv) (query : string) (w : world) : string :=
  Agent._create_prompt aenv query (first_context query w).

Definition first_reply (aenv : Agent.AgentEnv) (query : string) (w : world)
  : Agent.model_result :=
  Agent.model aenv (trace w) (first_prompt aenv query w).

(** The delimited blocks of a reply that decode as JSON. *)
Definition decodable_blocks (aenv : Agent.AgentEnv) (reply : string) : list string :=
  filter (fun m => match Agent.json_loads aenv (PyStr.strip m) with
                   | Some _ => true
                   | None => false
                   end)
         (Agent.findall reply).

End Props.

(** ** Sample inputs *)

Module Samples.

Local Open Scope string_scope.

Definition w0 : world := mkWorld [] [].

(** A table with no rows. *)
Definition no_rows : DataFrame :=
  mkFrame 0 [("agency_cd", []); ("site_no", [])].

(** Two rows; one column mixes a missing value with the sentinel. *)
Definition two_rows : DataFrame :=
  mkFrame 2 [ ("site_no", [Text "01594440"; Text "09380000"]);
              ("flag", [NA; Text "-"]);
              ("blank", [NA; NA]);
              ("dash", [Text "-"; Text "-"]);
              ("value", [Num 12; NA]) ].

(** One column that is neither all missing nor all sentinel, yet holds
    no proper value. *)
Definition flag_only : DataFrame :=
  mkFrame 2 [("flag", [NA; Text "-"])].

(** Two rows whose columns are all missing or all sentinel. *)
Definition all_dropped : DataFrame :=
  mkFrame 2 [("blank", [NA; NA]); ("dash", [Text "-"; Text "-"])].

Definition answering (df : DataFrame) : Env :=
  mkEnv (fun _ _ => Table df) (fun _ => "[...]").

Definition failing (text : string) : Env :=
  mkEnv (fun _ _ => Raises text) (fun _ => "[...]").

(** A site lookup and the service call it makes. *)
Definition site_params : dict := [("site_code", PStr "09380000")].

Definition site_request : service_call :=
  mkCall "get_record" [("sites", PStr "09380000"); ("service", PStr "site")].

(** A request for discharge measurements at two sites, and its call. *)
Definition two_sites_params : dict := [("sites", PStr "A,B")].

Definition two_sites_request : service_call :=
  mkCall "get_discharge_measurements"
         [("sites", PList [PStr "A"; PStr "B"]); ("start", PNone); ("end", PNone)].

(** The same request with the empty string for the sites. *)
Definition blank_sites_params : dict := [("sites", PStr "")].

Definition dq : string := String (Ascii.ascii_of_nat 34) EmptyString.

(** The JSON text of a call of [get_site_data]. *)
Definition site_call_text : string :=
  "{" ++ dq ++ "name" ++ dq ++ ": " ++ dq ++ "get_site_data" ++ dq ++ ", "
      ++ dq ++ "parameters" ++ dq ++ ": {" ++ dq ++ "site_code" ++ dq ++ ": "
      ++ dq ++ "09380000" ++ dq ++ "}}".

Definition site_call : pyval :=
  PDict [ ("name", PStr "get_site_data");
          ("parameters", PDict [("site_code", PStr "09380000")]) ].

(** A decoder that knows the two documents the samples use. *)
Definition sample_loads (s : string) : option pyval :=
  if String.eqb s site_call_text then Some site_call
  else if String.eqb s "42" then Some (PInt 42)
  else None.

Definition replying (reply : string) : Agent.AgentEnv :=
  Agent.mkAgentEnv (fun _ _ => Agent.Replies reply) sample_loads
                   (fun _ => "{}") (fun _ => "[]").

(** One block that decodes and one that does not. *)
Definition reply_one_good_one_bad : string :=
  "Looking it up. <function_call>
" ++ site_call_text ++ "
</function_call> and <function_call>{name: oops</function_call> done".

(** A block that decodes to a number. *)
Definition reply_number : string := "<function_call>42</function_call>".

End Samples.

(** ** The command-line session of example_agent.py *)

Module AgentMain.

Local Open Scope string_scope.
Local Open Scope py_scope.

(** The example queries of the session. *)
Definition queries : list string :=
  [ "Please summarize water use in the state of PA in 2015?";
    "What is the average water temperature in the Mississippi River?";
    "Show me the water flow rate in the Colorado River in 2020.";
    "What is the water quality in the Great Lakes?";
    "How does water usage vary seasonally in Washington DC?" ].

Definition newline : string := String (Ascii.ascii_of_nat 10) EmptyString.

(** [c * n] for a one-character string. *)
Fixpoint repeat_char (c : ascii) (n : nat) : string :=
  match n with
  | O => EmptyString
  | S n' => String c (repeat_char c n')
  end.

Section Session.

Variable env : Env.
Variable aenv : Agent.AgentEnv.

(** The loop over the queries; the result is what it prints, one entry
    for each [print]. *)
Fixpoint answer_all (queries : list string) : Py (list string) :=
  match queries with
  | [] => ret []
  | query :: rest =>
      response <- Agent.process_query env aenv query ;;
      printed <- answer_all rest ;;
      ret ((newline ++ "QUERY: " ++ query)%string
             :: repeat_char "-" 50
             :: ("RESPONSE:" ++ newline ++ response)%string
             :: repeat_char "=" 80
             :: printed)
  end.

(** The session starts from a fresh agent: an empty history. *)
Definition main : Py (list string) :=
  fun w => answer_all queries (mkWorld (trace w) []).

End Session.

End AgentMain.

(** ** Further vocabulary *)

Module Terms.

Local Open Scope string_scope.

(** [pd.isna] on one cell. *)
Definition isna (v : cell) : bool := negb (Frame.notna v).

(** One cell of [df == '-']. *)
Definition is_sentinel (v : cell) : bool := negb (Frame.ne_sentinel v).

(** A column whose values are entirely missing, or entirely the
    sentinel. *)
Definition all_missing (cells : list cell) : bool := forallb isna cells.
Definition all_sentinel (cells : list cell) : bool := forallb is_sentinel cells.

(** The shape of an envelope: a known status and a message; column
    names and data together on success, neither on error; no metadata. *)
Definition envelope_shape (e : envelope) : Prop :=
  message e <> None /\
  metadata e = None /\
  ((status e = "success" /\ data e <> None /\ column_names e <> None) \/
   (status e = "error" /\ data e = None /\ column_names e = None)).

(** Every row of the data has one cell for each column name. *)
Definition rectangular (e : envelope) : Prop :=
  forall cols rows,
    column_names e = Some cols -> data e = Some rows ->
    Forall (fun r => List.length r = List.length cols) rows.

(** The function of [dataretrieval.nwis] behind each operation. *)
Definition nwis_function (function_name : string) : string :=
  if String.eqb function_name "get_site_data" then "get_record"
  else if String.eqb function_name "get_daily_values" then "get_dv"
  else if String.eqb function_name "get_instantaneous_values" then "get_iv"
  else function_name.


(** The operations that unpack the parameter mapping into the call. *)
Definition unpacking (env : Env) : list (string * (pyval -> Py envelope)) :=
  [ ("get_info", Manual.get_info env);
    ("get_record", Manual.get_record env);
    ("get_stats", Manual.get_stats env);
    ("get_water_use", Manual.get_water_use env);
    ("what_sites", Manual.what_sites env) ].

(** The filters of which [get_info] wants at least one. *)
Definition info_filters : list string :=
  [ "stateCd"; "huc"; "bBox"; "countyCd"; "startDt"; "endDt"; "period";
    "modifiedSince"; "parameterCd"; "siteType" ].


(** The operations whose message counts the rows, with the words
    before and after the count. *)
Definition counting (env : Env) (d : dict)
  : list (string * (pyval -> Py envelope) * (string * string)) :=
  [ ("get_discharge_measurements", Manual.get_discharge_measurements env,
     ("Retrieved ", " discharge measurements"));
    ("get_discharge_peaks", Manual.get_discharge_peaks env,
     ("Retrieved ", " discharge peaks"));
    ("get_gwlevels", Manual.get_gwlevels env,
     ("Retrieved ", " groundwater level records"));
    ("get_pmcodes", Manual.get_pmcodes env, ("Retrieved ", " parameter codes"));
    ("get_ratings", Manual.get_ratings env,
     ("Retrieved ", " rating records for site " ++ str env (Py.get d "site")));
    ("get_record", Manual.get_record env, ("Retrieved ", " records"));
    ("what_sites", Manual.what_sites env, ("Found ", " sites matching the criteria")) ].

(** [isinstance(params, dict)] *)
Definition is_mapping (params : pyval) : bool :=
  match params with
  | PDict _ => true
  | _ => false
  end.

Definition is_model (ev : event) : bool :=
  match ev with
  | EvModel _ => true
  | _ => false
  end.

(** The language-model calls of a trace, in order. *)
Definition models (t : list event) : list event := filter is_model t.

Definition is_service (ev : event) : bool :=
  match ev with
  | EvService _ => true
  | _ => false
  end.

(** The data-service calls of a trace, in order. *)
Definition services (t : list event) : list event := filter is_service t.

(** Questions and answers as the history keeps them. *)
Fixpoint dialogue (queries answers : list string) : list chat_message :=
  match queries, answers with
  | q :: queries', a :: answers' =>
      mkMessage "user" q :: mkMessage "assistant" a :: dialogue queries' answers'
  | _, _ => []
  end.

(** What the session prints for questions and answers. *)
Fixpoint transcript (queries answers : list string) : list string :=
  match queries, answers with
  | q :: queries', a :: answers' =>
      (AgentMain.newline ++ "QUERY: " ++ q)%string
        :: AgentMain.repeat_char "-" 50
        :: ("RESPONSE:" ++ AgentMain.newline ++ a)%string
        :: AgentMain.repeat_char "=" 80
        :: transcript queries' answers'
  | _, _ => []
  end.

(** A text made of characters that one-, two- and three-byte tests
    accept. *)
Inductive made_of (p1 : ascii -> bool) (p2 : ascii -> ascii -> bool)
    (p3 : ascii -> ascii -> ascii -> bool) : string -> Prop :=
| made_of_nil : made_of p1 p2 p3 EmptyString
| made_of_one (c : ascii) (s : string) :
    p1 c = true -> made_of p1 p2 p3 s -> made_of p1 p2 p3 (String c s)
| made_of_two (c1 c2 : ascii) (s : string) :
    p2 c1 c2 = true -> made_of p1 p2 p3 s ->
    made_of p1 p2 p3 (String c1 (String c2 s))
| made_of_three (c1 c2 c3 : ascii) (s : string) :
    p3 c1 c2 c3 = true -> made_of p1 p2 p3 s ->
    made_of p1 p2 p3 (String c1 (String c2 (String c3 s))).

(** A text made of whitespace characters only. *)
Definition Whitespace : string -> Prop :=
  made_of PyStr.space1 PyStr.space2 PyStr.space3.

(** A text starts with a character that the tests accept. *)
Definition starts_with (p1 : ascii -> bool) (p2 : ascii -> ascii -> bool)
    (p3 : ascii -> ascii -> ascii -> bool) (s : string) : bool :=
  match s with
  | EmptyString => false
  | String c1 s1 =>
      p1 c1
      || match s1 with
         | EmptyString => false
         | String c2 s2 =>
             p2 c1 c2
             || match s2 with
                | EmptyString => false
                | String c3 _ => p3 c1 c2 c3
                end
         end
  end.

(** A text starts, or ends, with a whitespace character. *)
Definition starts_with_space (s : string) : bool :=
  starts_with PyStr.space1 PyStr.space2 PyStr.space3 s.

Definition ends_with_space (s : string) : bool :=
  starts_with PyStr.space1 (fun c2 c1 => PyStr.space2 c1 c2)
              (fun c3 c2 c1 => PyStr.space3 c1 c2 c3) (PyStr.rev s).

(** A character occurs in a text. *)
Fixpoint has_char (c : ascii) (s : string) : bool :=
  match s with
  | EmptyString => false
  | String c' s' => Ascii.eqb c' c || has_char c s'
  end.

(** How often a character occurs in a text. *)
Fixpoint count_char (c : ascii) (s : string) : nat :=
  match s with
  | EmptyString => 0
  | String c' s' => (if Ascii.eqb c' c then 1 else 0) + count_char c s'
  end.

(** The filters the tool [what_sites] is given, in the order it adds
    them. *)
Definition site_filters (stateCd siteType county huc : pyval) : dict :=
  [ ("stateCd", stateCd); ("siteType", siteType); ("county", county); ("huc", huc) ].

(** The site-list operations with the tools of the same name. *)
Definition site_list_pairs (env : Env)
  : list (string * (pyval -> Py envelope) * (pyval -> pyval -> pyval -> Py envelope)) :=
  [ ("get_discharge_measurements",
     Manual.get_discharge_measurements env, FastMCP.get_discharge_measurements env);
    ("get_discharge_peaks",
     Manual.get_discharge_peaks env, FastMCP.get_discharge_peaks env);
    ("get_gwlevels", Manual.get_gwlevels env, FastMCP.get_gwlevels env) ].

End Terms.

(** ** Further sample inputs *)

Module MoreSamples.

Import Samples.

Local Open Scope string_scope.

(** The column that mixes a missing value with the sentinel. *)
Definition flag_column : string * list cell := ("flag", [NA; Text "-"]).

(** A water-use table with its two internal columns. *)
Definition water_use_table : DataFrame :=
  mkFrame 1 [ ("state_cd", [Text "42"]); ("county_cd", [Text "001"]);
              ("year", [Num 2015]) ].

Definition water_use_params : dict := [("years", PStr "2015"); ("state", PStr "PA")].

(** The envelope and the world of the sample site lookup. *)
Definition site_envelope : envelope :=
  mkEnvelope "success"
             (Some [ [Text "01594440"; NA; Num 12]; [Text "09380000"; Text "-"; NA] ])
             (Some ["site_no"; "flag"; "value"])
             (Some "Successfully retrieved data for site 09380000")
             None.

Definition site_world : world :=
  mkWorld [ EvDispatch (PStr "get_site_data") (PDict site_params);
            EvOperation "get_site_data" (PDict site_params);
            EvService site_request ] [].



(** A request that names an output format only. *)
Definition output_only_params : dict := [("siteOutput", PStr "expanded")].

(** A reply without any block, and the text around a block. *)
Definition plain_reply : string := "There is nothing to look up.".

(** A block between a no-break space (U+00A0) and an ideographic space
    (U+3000), each with ordinary spaces around. *)
Definition nbsp : string :=
  String (Ascii.ascii_of_nat 194) (String (Ascii.ascii_of_nat 160) EmptyString).

Definition ideographic_space : string :=
  String (Ascii.ascii_of_nat 227)
         (String (Ascii.ascii_of_nat 128) (String (Ascii.ascii_of_nat 128) EmptyString)).

Definition padded_block : string :=
  " " ++ nbsp ++ " {x} " ++ ideographic_space ++ " ".

(** A model that replies once and fails when asked again. *)
Definition replying_once (reply : string) : Agent.AgentEnv :=
  Agent.mkAgentEnv
    (fun t _ => match Terms.models t with
                | [] => Agent.Replies reply
                | _ :: _ => Agent.Fails "overloaded"
                end)
    sample_loads (fun _ => "{}") (fun _ => "[]").

(** A model that fails at once. *)
Definition unreachable_model : Agent.AgentEnv :=
  Agent.mkAgentEnv (fun _ _ => Agent.Fails "connection refused")
                   sample_loads (fun _ => "{}") (fun _ => "[]").

Definition oops_block : string := "{name: oops".

End MoreSamples.

(** * Properties *)

(** ** Strings on small inputs *)

Example split_AB : PyStr.split PyStr.comma "A,B" = ["A"; "B"].
Proof. reflexivity. Qed.

Example split_empty : PyStr.split PyStr.comma "" = [""].
Proof. reflexivity. Qed.

Example split_trailing : PyStr.split PyStr.comma "2015, 2020," = ["2015"; " 2020"; ""].
Proof. reflexivity. Qed.

Example join_three : PyStr.join ", " ["a"; "b"; "c"] = "a, b, c".
Proof. reflexivity. Qed.

Example strip_block : PyStr.strip "  {x}
 " = "{x}".
Proof. reflexivity. Qed.

Example partition_mid : PyStr.partition "<b>" "a<b>c<b>" = Some ("a", "c<b>").
Proof. reflexivity. Qed.

Example of_nat_0 : PyStr.of_nat 0 = "0".
Proof. reflexivity. Qed.

Example of_nat_120 : PyStr.of_nat 120 = "120".
Proof. reflexivity. Qed.

Example of_Z_neg : PyStr.of_Z (-7) = "-7".
Proof. reflexivity. Qed.

(** ** The sanitizer *)

Module SanitizerFacts.

Lemma map_filter_select {A B : Type} (p : A -> bool) (f : A -> B) (l : list A) :
  map f (filter p l) = Props.select (map p l) (map f l).
Proof.
  induction l as [| x l IH]; simpl.
  - reflexivity.
  - destruct (p x); simpl; now rewrite IH.
Qed.

Lemma filter_twice {A : Type} (p q : A -> bool) (l : list A) :
  filter q (filter p l) = filter (fun x => p x && q x) l.
Proof.
  induction l as [| x l IH]; simpl.
  - reflexivity.
  - destruct (p x); simpl; [destruct (q x) |]; now rewrite IH.
Qed.

Lemma sanitize_columns (df : DataFrame) :
  columns (Frame.sanitize df)
  = filter (fun c => existsb Frame.notna (snd c) && existsb Frame.ne_sentinel (snd c))
           (columns df).
Proof. unfold Frame.sanitize; simpl. apply filter_twice. Qed.

Lemma sanitize_nrows (df : DataFrame) : nrows (Frame.sanitize df) = nrows df.
Proof. reflexivity. Qed.

Lemma sanitize_row (df : DataFrame) (i : nat) :
  Frame.row (Frame.sanitize df) i = Props.select (Props.kept df) (Frame.row df i).
Proof.
  unfold Frame.row, Props.kept. rewrite sanitize_columns.
  apply map_filter_select.
Qed.

Lemma sanitize_labels (df : DataFrame) :
  Frame.columns_tolist (Frame.sanitize df)
  = Props.select (Props.kept df) (Frame.columns_tolist df).
Proof.
  unfold Frame.columns_tolist, Props.kept. rewrite sanitize_columns.
  apply map_filter_select.
Qed.

Lemma sanitize_values (df : DataFrame) :
  Frame.values_tolist (Frame.sanitize df)
  = map (Props.select (Props.kept df)) (Frame.values_tolist df).
Proof.
  unfold Frame.values_tolist. rewrite sanitize_nrows, map_map.
  apply map_ext. intro i. apply sanitize_row.
Qed.

(** Every serialized row has one cell per column label. *)
Lemma rows_match_labels (df : DataFrame) (r : list cell) :
  In r (Frame.values_tolist df) ->
  List.length r = List.length (Frame.columns_tolist df).
Proof.
  unfold Frame.values_tolist, Frame.columns_tolist. intro H.
  apply in_map_iff in H. destruct H as [i [<- _]].
  unfold Frame.row. now rewrite !length_map.
Qed.

(** With no rows, a well-formed table has only empty columns, and an
    empty column passes neither test. *)
Lemma sanitize_no_rows (df : DataFrame) :
  Frame.well_formed df = true -> nrows df = 0 ->
  Frame.sanitize df = mkFrame 0 [].
Proof.
  intros Hwf Hrows. unfold Frame.sanitize, Frame.loc_any_ne_sentinel, Frame.dropna_all.
  simpl. rewrite Hrows. f_equal.
  unfold Frame.well_formed in Hwf. rewrite Hrows in Hwf.
  induction (columns df) as [| [label cells] cols IH]; simpl in *.
  - reflexivity.
  - apply andb_true_iff in Hwf. destruct Hwf as [Hlen Hrest].
    apply Nat.eqb_eq in Hlen. destruct cells; [| discriminate].
    simpl. auto.
Qed.

(** The same holds after [drop]. *)
Lemma drop_well_formed (labels : list string) (df : DataFrame) :
  Frame.well_formed df = true -> Frame.well_formed (Frame.drop labels df) = true.
Proof.
  unfold Frame.well_formed, Frame.drop; simpl.
  induction (columns df) as [| c cols IH]; simpl; intro H.
  - reflexivity.
  - apply andb_true_iff in H. destruct H as [Hc Hrest].
    destruct (negb _); simpl; [rewrite Hc |]; auto.
Qed.

Lemma empty_sanitize (df : DataFrame) :
  Frame.empty df = true -> Frame.empty (Frame.sanitize df) = true.
Proof.
  unfold Frame.empty. rewrite sanitize_nrows, sanitize_columns.
  intro H. apply orb_true_iff in H. apply orb_true_iff.
  destruct H as [H | H]; [now left | right].
  destruct (columns df); [reflexivity | discriminate].
Qed.

End SanitizerFacts.

Example sanitize_two_rows :
  Frame.sanitize Samples.two_rows
  = mkFrame 2 [ ("site_no", [Text "01594440"; Text "09380000"]);
                ("flag", [NA; Text "-"]);
                ("value", [Num 12; NA]) ].
Proof. reflexivity. Qed.

Example values_two_rows :
  Frame.values_tolist (Frame.sanitize Samples.two_rows)
  = [ [Text "01594440"; NA; Num 12]; [Text "09380000"; Text "-"; NA] ].
Proof. reflexivity. Qed.

(** C3, as stated, fails: the column [flag] of [Samples.flag_only] holds a
    missing value and the sentinel, so it is neither all missing nor all
    sentinel and survives, although none of its values is both present
    and different from the sentinel. *)
Lemma sanitize_keeps_flag_column :
  Frame.well_formed Samples.flag_only = true /\
  In ("flag", [NA; Text "-"]) (columns (Frame.sanitize Samples.flag_only)) /\
  existsb Props.proper [NA; Text "-"] = false /\
  ~ (forall df c, In c (columns (Frame.sanitize df)) ->
                  existsb Props.proper (snd c) = true).
Proof.
  repeat split.
  - simpl. now left.
  - intro H.
    specialize (H Samples.flag_only ("flag", [NA; Text "-"]) (or_introl eq_refl)).
    discriminate H.
Qed.

(** C3, amended: every column that survives the sanitizer is a column of
    the input with at least one value that is not missing and at least
    one value that differs from the sentinel (not necessarily the same
    value); the row count is unchanged, and the rows come out in input
    order, each restricted to the surviving columns.  The formatter of
    the tool-serving variant serializes exactly this table. *)
Theorem sanitize_columns_and_rows (df : DataFrame) :
  (forall c, In c (columns (Frame.sanitize df)) ->
             In c (columns df) /\
             existsb Frame.notna (snd c) = true /\
             existsb Frame.ne_sentinel (snd c) = true) /\
  nrows (Frame.sanitize df) = nrows df /\
  List.length (Frame.values_tolist (Frame.sanitize df)) = nrows df /\
  Frame.columns_tolist (Frame.sanitize df)
  = Props.select (Props.kept df) (Frame.columns_tolist df) /\
  Frame.values_tolist (Frame.sanitize df)
  = map (Props.select (Props.kept df)) (Frame.values_tolist df) /\
  (forall msg,
      column_names (FastMCP._format_dataframe_result df msg)
      = Some (Frame.columns_tolist (Frame.sanitize df)) /\
      data (FastMCP._format_dataframe_result df msg)
      = Some (Frame.values_tolist (Frame.sanitize df))).
Proof.
  split; [| split; [| split; [| split; [| split]]]].
  - intros c Hc. rewrite SanitizerFacts.sanitize_columns in Hc.
    apply filter_In in Hc. destruct Hc as [Hin Hkeep].
    apply andb_true_iff in Hkeep. tauto.
  - reflexivity.
  - unfold Frame.values_tolist. now rewrite length_map, length_seq.
  - apply SanitizerFacts.sanitize_labels.
  - apply SanitizerFacts.sanitize_values.
  - intro msg. split; reflexivity.
Qed.

(** ** The operations *)

Lemma app_one_neq {A : Type} (l : list A) (x : A) : l <> l ++ [x].
Proof.
  intro H. apply (f_equal (@List.length A)) in H.
  rewrite length_app in H. simpl in H. lia.
Qed.

Lemma app_one_inj {A : Type} (l : list A) (x y : A) : l ++ [x] = l ++ [y] -> x = y.
Proof. intro H. apply app_inv_head in H. congruence. Qed.

(** Unfold an operation and the monad in a hypothesis. *)
Ltac py_unfold H :=
  cbv beta iota zeta delta
    [Manual.get_site_data Manual.get_daily_values Manual.get_instantaneous_values
     Manual.get_discharge_measurements Manual.get_discharge_peaks Manual.get_gwlevels
     Manual.get_info Manual.get_pmcodes Manual.get_ratings Manual.get_record
     Manual.get_stats Manual.get_water_use Manual.what_sites
     bind ret raise try_except emit py_get py_get_default unpack call_nwis] in H.

(** Split on every test of the operation and on the service's answer. *)
Ltac py_cases H :=
  repeat (cbv beta iota zeta in H;
          match type of H with
          | context [negb ?b] =>
              destruct b eqn:?;
              try change (negb true) with false in H;
              try change (negb false) with true in H
          | context [match nwis ?e ?t ?c with _ => _ end] =>
              destruct (nwis e t c) eqn:?
          end);
  cbv beta iota zeta in H.

(** From [Hin : In (fn, op) table], [Hrun : op (PDict d) w = (r, w')] and
    [Htrace : trace w' = trace w ++ [EvService c]]: one goal per path of
    each operation on which the service was called, with [c] the call. *)
Ltac op_run Hin Hrun Htrace :=
  unfold Manual.functions, Props.emptiness_checked, Props.emptiness_unchecked,
    Props.sites_operations in Hin;
  simpl in Hin;
  repeat (destruct Hin as [Hin | Hin]; [inversion Hin; subst; clear Hin |]);
  try contradiction;
  py_unfold Hrun; py_cases Hrun;
  inversion Hrun; subst; clear Hrun; simpl in Htrace;
  try (exfalso; eapply app_one_neq; eassumption);
  apply app_one_inj in Htrace; inversion Htrace; subst.

(** Identify the service's answer on the path with the one assumed. *)
Ltac same_answer Hsvc :=
  match goal with
  | H : nwis _ _ _ = _ |- _ =>
      lazymatch H with
      | Hsvc => fail
      | _ => rewrite Hsvc in H; try discriminate H; inversion H; subst; clear H
      end
  end.

Section OperationFacts.

Variable env : Env.

(** C1, amended: for site lookup, daily values and instantaneous values,
    when the service call succeeds but the returned table is empty, the
    operation returns an envelope with status error, an explanatory
    message and neither column names nor data. *)
Theorem empty_table_is_error_when_checked
    (fn : string) (op : pyval -> Py envelope) (d : dict) (w w' : world)
    (r : outcome envelope) (c : service_call) (df : DataFrame) :
  In (fn, op) (Props.emptiness_checked env) ->
  op (PDict d) w = (r, w') ->
  trace w' = trace w ++ [EvService c] ->
  nwis env (trace w) c = Table df ->
  Frame.empty df = true ->
  exists e,
    r = Return e /\
    status e = "error" /\
    message e = Some (Props.no_data_message env fn d) /\
    data e = None /\
    column_names e = None.
Proof.
  intros Hin Hrun Htrace Hsvc Hempty.
  apply SanitizerFacts.empty_sanitize in Hempty. unfold Frame.sanitize in Hempty.
  op_run Hin Hrun Htrace; same_answer Hsvc; try congruence.
  all: eexists; repeat split; reflexivity.
Qed.

(** C5, amended: when the service call raises, the envelope has status
    error and neither column names nor data, and its message is the
    text of the exception, which site lookup, daily values and
    instantaneous values put behind a fixed label. *)
Theorem service_error_is_reported
    (fn : string) (op : pyval -> Py envelope) (d : dict) (w w' : world)
    (r : outcome envelope) (c : service_call) (text : string) :
  In (fn, op) (Manual.functions env) ->
  op (PDict d) w = (r, w') ->
  trace w' = trace w ++ [EvService c] ->
  nwis env (trace w) c = Raises text ->
  exists e,
    r = Return e /\
    status e = "error" /\
    message e = Some (Props.error_label fn ++ text)%string /\
    data e = None /\
    column_names e = None.
Proof.
  intros Hin Hrun Htrace Hsvc.
  op_run Hin Hrun Htrace; same_answer Hsvc.
  all: eexists; repeat split; reflexivity.
Qed.

(** C10: a well-formed table with no rows loses every column in the
    sanitizer, so an operation that does not test for emptiness returns
    status success with empty column names and empty data. *)
Theorem zero_rows_give_empty_success
    (fn : string) (op : pyval -> Py envelope) (d : dict) (w w' : world)
    (r : outcome envelope) (c : service_call) (df : DataFrame) :
  Frame.well_formed df = true ->
  nrows df = 0 ->
  In (fn, op) (Props.emptiness_unchecked env) ->
  op (PDict d) w = (r, w') ->
  trace w' = trace w ++ [EvService c] ->
  nwis env (trace w) c = Table df ->
  Frame.sanitize df = mkFrame 0 [] /\
  (forall msg, FastMCP._format_dataframe_result df msg
               = mkEnvelope "success" (Some []) (Some []) (Some msg) None) /\
  exists e,
    r = Return e /\
    status e = "success" /\
    column_names e = Some [] /\
    data e = Some [].
Proof.
  intros Hwf Hrows Hin Hrun Htrace Hsvc.
  pose proof (SanitizerFacts.sanitize_no_rows df Hwf Hrows) as Hclean.
  pose proof (SanitizerFacts.sanitize_no_rows
                (Frame.drop ["state_cd"; "county_cd"] df)
                (SanitizerFacts.drop_well_formed _ df Hwf) Hrows) as Hclean'.
  split; [exact Hclean | split].
  - intro msg. unfold FastMCP._format_dataframe_result.
    change (Frame.loc_any_ne_sentinel (Frame.dropna_all df)) with (Frame.sanitize df).
    rewrite Hclean. reflexivity.
  - unfold Frame.sanitize in Hclean, Hclean'.
    op_run Hin Hrun Htrace; same_answer Hsvc.
    all: eexists; split; [reflexivity |]; simpl.
    all: try rewrite Hclean; try rewrite Hclean'; repeat split; reflexivity.
Qed.

End OperationFacts.

(** ** The tool-serving variant *)

Section ToolFacts.

Variable env : Env.

(** The tools that test for emptiness do so before the table is
    cleaned. *)
Lemma tool_site_lookup_on_empty_table (site_code : pyval) (w : world) (df : DataFrame) :
  nwis env (trace w) (mkCall "get_record" [("sites", site_code); ("service", PStr "site")])
  = Table df ->
  Frame.empty df = true ->
  fst (FastMCP.get_site_data env site_code w)
  = Return (FastMCP.error_result ("No data found for site " ++ str env site_code)%string).
Proof.
  intros Hsvc Hempty.
  unfold FastMCP.get_site_data, try_except, bind, call_nwis, ret.
  now rewrite Hsvc, Hempty.
Qed.

(** The tools without the test hand every table to the formatter. *)
Lemma tool_discharge_measurements_on_table
    (sites start end_ : pyval) (w : world) (df : DataFrame) :
  nwis env (trace w)
       (mkCall "get_discharge_measurements"
               [("sites", FastMCP.sites_list_of sites); ("start", start); ("end", end_)])
  = Table df ->
  fst (FastMCP.get_discharge_measurements env sites start end_ w)
  = Return (FastMCP._format_dataframe_result df
              ("Retrieved " ++ PyStr.of_nat (nrows df) ++ " discharge measurements")%string).
Proof.
  intro Hsvc.
  unfold FastMCP.get_discharge_measurements, try_except, bind, call_nwis, ret.
  now rewrite Hsvc.
Qed.

End ToolFacts.

(** ** Required parameters and normalization *)

Module StringFacts.

Lemma append_assoc (a b c : string) : ((a ++ b) ++ c)%string = (a ++ (b ++ c))%string.
Proof. induction a as [| x a IH]; simpl; [reflexivity | now rewrite IH]. Qed.

Lemma append_nil_r (a : string) : (a ++ "")%string = a.
Proof. induction a as [| x a IH]; simpl; [reflexivity | now rewrite IH]. Qed.

Lemma length_append (a b : string) :
  String.length (a ++ b) = String.length a + String.length b.
Proof. induction a as [| x a IH]; simpl; [reflexivity | now rewrite IH]. Qed.

Lemma split_not_nil (sep : ascii) (s : string) : PyStr.split sep s <> [].
Proof.
  destruct s as [| c s]; simpl; [discriminate |].
  destruct (Ascii.eqb c sep); [discriminate |].
  destruct (PyStr.split sep s); discriminate.
Qed.

Lemma split_commas_truthy (s : string) : Py.truthy (Py.split_commas s) = true.
Proof.
  unfold Py.split_commas. pose proof (split_not_nil PyStr.comma s) as H.
  destruct (PyStr.split PyStr.comma s); [contradiction | reflexivity].
Qed.





End StringFacts.


Lemma lookup_present {A : Type} (k : string) (d : list (string * A)) (v : A) :
  Py.lookup k d = Some v -> In (k, v) d.
Proof.
  induction d as [| [k' v'] d IH]; simpl; intro H.
  - discriminate.
  - destruct (String.eqb_spec k k') as [-> | Hne].
    + inversion H. now left.
    + right. now apply IH.
Qed.

(** Unfold an operation and the monad in the goal. *)
Ltac py_unfold_goal :=
  cbv beta iota zeta delta
    [Manual.get_site_data Manual.get_daily_values Manual.get_instantaneous_values
     Manual.get_discharge_measurements Manual.get_discharge_peaks Manual.get_gwlevels
     Manual.get_info Manual.get_pmcodes Manual.get_ratings Manual.get_record
     Manual.get_stats Manual.get_water_use Manual.what_sites
     bind ret raise try_except emit py_get py_get_default unpack call_nwis].

Section ParameterFacts.

Variable env : Env.

(** The three site-list operations hand the service the split list. *)
Lemma sites_are_split_before_the_call
    (fn : string) (op : pyval -> Py envelope) (d : dict) (w : world) (s : string) :
  In (fn, op) (Props.sites_operations env) ->
  Py.get d "sites" = PStr s ->
  snd (op (PDict d) w)
  = Props.after_call w
      (mkCall fn [ ("sites", Py.split_commas s);
                   ("start", Py.get d "start"); ("end", Py.get d "end") ]).
Proof.
  intros Hin Hsites. unfold Props.sites_operations in Hin. simpl in Hin.
  repeat (destruct Hin as [Hin | Hin]; [inversion Hin; subst; clear Hin |]);
    try contradiction.
  all: py_unfold_goal; rewrite Hsites; cbv beta iota.
  all: rewrite StringFacts.split_commas_truthy; cbv beta iota delta [negb].
  all: destruct (nwis env _ _); reflexivity.
Qed.

(** [get_stats] always forwards the mapping it was given. *)
Lemma get_stats_forwards_params (d : dict) (w : world) :
  snd (Manual.get_stats env (PDict d) w) = Props.after_call w (mkCall "get_stats" d).
Proof. py_unfold_goal. destruct (nwis env _ _); reflexivity. Qed.

(** So does [get_water_use], once it accepts the mapping. *)
Lemma get_water_use_forwards_params (d : dict) (w : world) :
  Py.truthy (Py.get d "years") = true ->
  snd (Manual.get_water_use env (PDict d) w)
  = Props.after_call w (mkCall "get_water_use" d).
Proof.
  intro Hyears. py_unfold_goal.
  assert (Hany : forall a b c,
             Py.any [ (if Py.truthy (Py.get d "years") && Py.is_str (Py.get d "years")
                       then match Py.get d "years" with
                            | PStr s => Py.split_commas s
                            | _ => Py.get d "years"
                            end
                       else Py.get d "years"); a; b; c ] = true).
  { intros a b c. unfold Py.any. rewrite Hyears.
    destruct (Py.get d "years") as [| b0 | z | s | l | dd];
      cbv beta iota delta [andb Py.is_str existsb];
      try rewrite StringFacts.split_commas_truthy; try rewrite Hyears; reflexivity. }
  rewrite Hany. cbv beta iota delta [negb].
  destruct (nwis env _ _); reflexivity.
Qed.

(** C4 at the failing input: with [sites] given as the string [A,B],
    [get_stats] calls the service with that string, not with the list
    it has just split off; [get_water_use] does the same with [years]. *)
Theorem get_stats_forwards_raw_string (w : world) :
  snd (Manual.get_stats env (PDict [("sites", PStr "A,B")]) w)
  = Props.after_call w (mkCall "get_stats" [("sites", PStr "A,B")]) /\
  snd (Manual.get_water_use env (PDict [("years", PStr "A,B")]) w)
  = Props.after_call w (mkCall "get_water_use" [("years", PStr "A,B")]) /\
  Py.split_commas "A,B" = PList [PStr "A"; PStr "B"] /\
  PStr "A,B" <> PList [PStr "A"; PStr "B"].
Proof.
  repeat split.
  - apply get_stats_forwards_params.
  - apply get_water_use_forwards_params. reflexivity.
  - discriminate.
Qed.


(** C9: with [sites] the empty string, the three site-list operations
    call the service with the one-element list holding the empty string;
    they reject the call before reaching the service exactly when
    [sites] is absent, [None] or another false value that is not a
    string. *)
Theorem empty_sites_string_reaches_service
    (fn : string) (op : pyval -> Py envelope) (d : dict) (w : world) :
  In (fn, op) (Props.sites_operations env) ->
  (Py.get d "sites" = PStr "" ->
   snd (op (PDict d) w)
   = Props.after_call w
       (mkCall fn [ ("sites", PList [PStr ""]);
                    ("start", Py.get d "start"); ("end", Py.get d "end") ])) /\
  (op (PDict d) w = (Return (Manual.error_response "Sites parameter is required"), w)
   <-> Py.is_str (Py.get d "sites") = false /\ Py.truthy (Py.get d "sites") = false).
Proof.
  intro Hin. split.
  - intro Hsites. now apply (sites_are_split_before_the_call fn op d w "").
  - split.
    + intro Hrun.
      destruct (Py.is_str (Py.get d "sites")) eqn:Hstr.
      * exfalso. destruct (Py.get d "sites") as [| | | s | |] eqn:Hsites;
          try discriminate Hstr.
        pose proof (sites_are_split_before_the_call fn op d w s Hin Hsites) as Hcall.
        rewrite Hrun in Hcall. simpl in Hcall.
        apply (f_equal trace) in Hcall. simpl in Hcall.
        exact (app_one_neq _ _ Hcall).
      * split; [reflexivity |].
        destruct (Py.truthy (Py.get d "sites")) eqn:Htruthy; [exfalso | reflexivity].
        unfold Props.sites_operations in Hin. simpl in Hin.
        repeat (destruct Hin as [Hin | Hin]; [inversion Hin; subst; clear Hin |]);
          try contradiction.
        all: py_unfold Hrun.
        all: destruct (Py.get d "sites"); try discriminate Hstr;
          rewrite Htruthy in Hrun; cbv beta iota delta [negb] in Hrun;
          destruct (nwis env _ _); inversion Hrun as [[He Hw]];
          apply (f_equal trace) in Hw; simpl in Hw;
          symmetry in Hw; exact (app_one_neq _ _ Hw).
    + intros [Hstr Htruthy].
      unfold Props.sites_operations in Hin. simpl in Hin.
      repeat (destruct Hin as [Hin | Hin]; [inversion Hin; subst; clear Hin |]);
        try contradiction.
      all: py_unfold_goal.
      all: destruct (Py.get d "sites"); try discriminate Hstr;
        rewrite Htruthy; reflexivity.
Qed.

End ParameterFacts.

(** ** The dispatcher and the catalog *)

Section DispatcherFacts.

Variable env : Env.

Example registered_names :
  Py.keys (Manual.functions env)
  = [ "get_site_data"; "get_daily_values"; "get_instantaneous_values";
      "get_discharge_measurements"; "get_discharge_peaks"; "get_gwlevels";
      "get_info"; "get_pmcodes"; "get_ratings"; "get_record"; "get_stats";
      "get_water_use"; "what_sites" ]%string.
Proof. reflexivity. Qed.


(** A name that cannot be hashed makes the membership test raise. *)
Example unhashable_name_raises (params : pyval) (w : world) :
  Manual.call_function env (PList []) params w
  = (Raise (TypeError "unhashable type: 'list'"),
     mkWorld (trace w ++ [EvDispatch (PList []) params]) (messages w)).
Proof. reflexivity. Qed.

(** Every descriptor of the catalog names a registered operation. *)
Lemma catalog_names_are_dispatchable (d : Manual.descriptor) :
  In d Manual.get_mcp_functions -> In (Manual.name d) (Py.keys (Manual.functions env)).
Proof.
  intro Hin. unfold Manual.get_mcp_functions in Hin. simpl in Hin.
  repeat (destruct Hin as [Hin | Hin]; [subst d; simpl; tauto |]).
  contradiction.
Qed.

(** Every registered name but [get_record] has exactly one descriptor. *)
Lemma other_names_have_one_descriptor (n : string) :
  In n (Py.keys (Manual.functions env)) -> n <> "get_record"%string ->
  Props.descriptor_count n = 1.
Proof.
  intros Hin Hne. simpl in Hin.
  repeat (destruct Hin as [Hin | Hin]; [subst n; try reflexivity; now contradiction Hne |]).
  contradiction.
Qed.

(** C2 at the failing input: [get_record] is a key of the dispatch
    table, and the dispatcher enters it, yet no descriptor of the
    catalog carries its name. *)
Theorem get_record_has_no_descriptor :
  In "get_record"%string (Py.keys (Manual.functions env)) /\
  Py.lookup "get_record" (Manual.functions env) = Some (Manual.get_record env) /\
  Props.descriptor_count "get_record" = 0 /\
  List.length (Py.keys (Manual.functions env)) = 13 /\
  List.length Manual.get_mcp_functions = 12.
Proof. repeat split; simpl; tauto. Qed.

End DispatcherFacts.

(** ** The driver *)

Module RegexFacts.

Lemma prefix_skip (pat s : string) :
  String.prefix pat s = true -> s = (pat ++ PyStr.skip (String.length pat) s)%string.
Proof.
  revert s. induction pat as [| a pat IH]; intros s H; simpl.
  - reflexivity.
  - destruct s as [| b s]; simpl in H; [discriminate |].
    destruct (ascii_dec a b) as [-> | _]; [| discriminate].
    f_equal. now apply IH.
Qed.

Lemma partition_equation (pat s : string) :
  PyStr.partition pat s
  = if String.prefix pat s then Some (EmptyString, PyStr.skip (String.length pat) s)
    else match s with
         | EmptyString => None
         | String c s' =>
             match PyStr.partition pat s' with
             | Some (before, after) => Some (String c before, after)
             | None => None
             end
         end.
Proof. destruct s; reflexivity. Qed.

(** What [partition] returns frames an occurrence of the pattern. *)
Lemma partition_sound (pat s before after : string) :
  PyStr.partition pat s = Some (before, after) ->
  s = (before ++ pat ++ after)%string.
Proof.
  revert before. induction s as [| c s IH]; intros before H;
    rewrite partition_equation in H;
    destruct (String.prefix pat _) eqn:Hp.
  - inversion H; subst. simpl. now apply prefix_skip.
  - discriminate.
  - inversion H; subst. simpl. now apply prefix_skip.
  - destruct (PyStr.partition pat s) as [[b a] |]; [| discriminate].
    inversion H; subst. simpl. f_equal. now apply IH.
Qed.

Lemma partition_length (pat s before after : string) :
  PyStr.partition pat s = Some (before, after) ->
  String.length s = String.length before + String.length pat + String.length after.
Proof.
  intro H. apply partition_sound in H. rewrite H at 1.
  rewrite !StringFacts.length_append. lia.
Qed.

Lemma findall_fuel_stable (n m : nat) (text : string) :
  String.length text <= n -> String.length text <= m ->
  Agent.findall_fuel n text = Agent.findall_fuel m text.
Proof.
  revert m text. induction n as [| n IH]; intros m text Hn Hm.
  - destruct text; [| simpl in Hn; lia]. destruct m; reflexivity.
  - destruct m as [| m].
    + destruct text; [| simpl in Hm; lia]. reflexivity.
    + simpl.
      destruct (PyStr.partition Agent.open_tag text) as [[skipped inner] |] eqn:Hopen;
        [| reflexivity].
      destruct (PyStr.partition Agent.close_tag inner) as [[captured rest] |] eqn:Hclose;
        [| reflexivity].
      apply partition_length in Hopen. apply partition_length in Hclose.
      simpl in Hopen, Hclose.
      f_equal. apply IH; lia.
Qed.

(** More fuel than the length of the text changes nothing. *)
Lemma findall_fuel_enough (n : nat) (text : string) :
  String.length text <= n -> Agent.findall_fuel n text = Agent.findall text.
Proof. intro H. unfold Agent.findall. now apply findall_fuel_stable. Qed.

(** The unfolding equation of [findall]. *)
Lemma findall_equation (text : string) :
  Agent.findall text
  = match PyStr.partition Agent.open_tag text with
    | None => []
    | Some (_, inner) =>
        match PyStr.partition Agent.close_tag inner with
        | None => []
        | Some (captured, rest) => captured :: Agent.findall rest
        end
    end.
Proof.
  unfold Agent.findall at 1.
  destruct (String.length text) as [| n] eqn:Hlen.
  - destruct text; [reflexivity | discriminate].
  - simpl.
    destruct (PyStr.partition Agent.open_tag text) as [[skipped inner] |] eqn:Hopen;
      [| reflexivity].
    destruct (PyStr.partition Agent.close_tag inner) as [[captured rest] |] eqn:Hclose;
      [| reflexivity].
    apply partition_length in Hopen. apply partition_length in Hclose.
    simpl in Hopen, Hclose.
    f_equal. apply findall_fuel_enough. lia.
Qed.

Lemma prefix_append (pat rest : string) : String.prefix pat (pat ++ rest) = true.
Proof.
  induction pat as [| a pat IH]; simpl; [now destruct rest |].
  destruct (ascii_dec a a); [exact IH | contradiction].
Qed.

(** Where the pattern occurs, [partition] finds an occurrence. *)
Lemma partition_complete (pat before after : string) :
  PyStr.partition pat (before ++ pat ++ after) <> None.
Proof.
  induction before as [| c before IH]; rewrite partition_equation.
  - simpl. now rewrite prefix_append.
  - destruct (String.prefix pat _); [discriminate |]. simpl.
    destruct (PyStr.partition pat (before ++ pat ++ after)) as [[b a] |];
      [discriminate | contradiction].
Qed.

(** A reply without an opening tag has no block. *)
Lemma findall_without_open_tag (text : string) :
  ~ Props.mentions text Agent.open_tag -> Agent.findall text = [].
Proof.
  intro H. rewrite findall_equation.
  destruct (PyStr.partition Agent.open_tag text) as [[skipped inner] |] eqn:Hopen;
    [| reflexivity].
  exfalso. apply H. exists skipped, inner. now apply partition_sound.
Qed.

End RegexFacts.

Section DriverFacts.

Variable env : Env.
Variable aenv : Agent.AgentEnv.

(** Exactly the blocks that decode are kept, in order. *)
Lemma decode_matches_keeps_decodable (matches : list string) :
  map (fun m => Agent.json_loads aenv (PyStr.strip m))
      (filter (fun m => match Agent.json_loads aenv (PyStr.strip m) with
                        | Some _ => true
                        | None => false
                        end) matches)
  = map Some (Agent.decode_matches aenv matches).
Proof.
  induction matches as [| m rest IH]; simpl; [reflexivity |].
  destruct (Agent.json_loads aenv (PyStr.strip m)) eqn:Hm; simpl.
  - now rewrite Hm, IH.
  - exact IH.
Qed.

(** On a parameter mapping every operation returns an envelope, after at
    most one service call and without going through the dispatcher. *)
Lemma operation_returns (fn : string) (op : pyval -> Py envelope) (d : dict) (w : world) :
  In (fn, op) (Manual.functions env) ->
  exists e evs,
    op (PDict d) w = (Return e, mkWorld (trace w ++ evs) (messages w)) /\
    Props.dispatches evs = [].
Proof.
  intro Hin. destruct w as [t m].
  remember (op (PDict d) (mkWorld t m)) as run eqn:Hrun.
  unfold Manual.functions in Hin. simpl in Hin.
  repeat (destruct Hin as [Hin | Hin]; [inversion Hin; subst fn op; clear Hin |]);
    try contradiction.
  all: py_unfold Hrun; py_cases Hrun; subst run; cbn [trace messages].
  all: first [ eexists; exists []; rewrite app_nil_r; split; reflexivity
             | eexists; eexists; split; reflexivity ].
Qed.

Lemma dispatches_app (t1 t2 : list event) :
  Props.dispatches (t1 ++ t2) = Props.dispatches t1 ++ Props.dispatches t2.
Proof. apply filter_app. Qed.

(** With a name that can be hashed and a parameter mapping, the
    dispatcher returns an envelope and is recorded once. *)
Lemma call_function_returns (fn : pyval) (d : dict) (w : world) :
  Py.hashable fn = true ->
  exists e w',
    Manual.call_function env fn (PDict d) w = (Return e, w') /\
    messages w' = messages w /\
    Props.dispatches (trace w')
    = Props.dispatches (trace w) ++ [EvDispatch fn (PDict d)].
Proof.
  intro Hhash.
  unfold Manual.call_function, Manual.lookup_function, bind, emit, ret.
  cbn [trace messages].
  assert (Hunknown :
            forall msg,
              exists e w',
                (Return (Manual._format_response "error" None None (Some msg) None),
                 mkWorld (trace w ++ [EvDispatch fn (PDict d)]) (messages w))
                = (Return e, w') /\
                messages w' = messages w /\
                Props.dispatches (trace w')
                = Props.dispatches (trace w) ++ [EvDispatch fn (PDict d)]).
  { intro msg. eexists. eexists. split; [reflexivity | split; [reflexivity |]].
    cbn [trace]. now rewrite dispatches_app. }
  destruct fn as [| b | z | s | l | dd]; try discriminate Hhash; try apply Hunknown.
  destruct (Py.lookup s (Manual.functions env)) as [op |] eqn:Hlookup;
    [| apply Hunknown].
  apply lookup_present in Hlookup.
  destruct (operation_returns s op d
              (mkWorld ((trace w ++ [EvDispatch (PStr s) (PDict d)])
                        ++ [EvOperation (str env (PStr s)) (PDict d)])
                       (messages w)) Hlookup)
    as (e & evs & Hop & Hevs).
  cbn [trace messages] in Hop |- *. rewrite Hop.
  exists e. eexists. split; [reflexivity | split; [reflexivity |]].
  cbn [trace]. rewrite !dispatches_app, Hevs. simpl. now rewrite !app_nil_r.
Qed.

(** The loop of the driver over well-shaped calls: one dispatcher call
    and one result for each, in order. *)
Lemma execute_calls_returns (calls : list pyval) :
  Forall (fun call => Props.well_shaped call = true) calls ->
  forall w,
  exists results w',
    Agent.execute_calls env calls w = (Return results, w') /\
    messages w' = messages w /\
    List.length results = List.length calls /\
    Props.dispatches (trace w')
    = Props.dispatches (trace w) ++ map Props.dispatch_of calls.
Proof.
  induction 1 as [| call calls Hshape _ IH]; intro w.
  - exists [], w. simpl. now rewrite app_nil_r.
  - destruct call as [| | | | | cd]; try discriminate Hshape.
    simpl in Hshape. apply andb_true_iff in Hshape. destruct Hshape as [Hname Hparams].
    destruct (Py.get_default cd "parameters" (PDict [])) as [| | | | | pd] eqn:Hpd;
      try discriminate Hparams.
    destruct (call_function_returns (Py.get cd "name") pd w Hname)
      as (e & w1 & Hcall & Hm1 & Hd1).
    destruct (IH w1) as (results & w2 & Hrest & Hm2 & Hlen & Hd2).
    exists ((Py.get cd "name", e) :: results), w2.
    split; [| split; [congruence | split; [simpl; congruence |]]].
    + cbn [Agent.execute_calls]. unfold bind, py_get, py_get_default, ret.
      rewrite Hpd, Hcall, Hrest. reflexivity.
    + rewrite Hd2, Hd1. simpl. rewrite Hpd. now rewrite <- app_assoc.
Qed.

(** For every reply, the calls the driver extracts are the decoded
    contents of exactly the blocks that decode, in the order of the
    reply: a block that does not decode is skipped and leaves nothing
    behind. *)
Lemma extracted_calls_are_the_decodable_blocks (reply : string) :
  map (fun m => Agent.json_loads aenv (PyStr.strip m)) (Props.decodable_blocks aenv reply)
  = map Some (Agent._extract_function_calls aenv reply).
Proof. apply decode_matches_keeps_decodable. Qed.

(** When the model replies and every block that decodes is a JSON object
    whose name can be looked up and whose parameters, if given, are an
    object, the driver calls the dispatcher exactly once for each such
    block, in the order of the reply, and collects one result for
    each before it asks the model again. *)
Theorem decodable_well_shaped_blocks_dispatch_once
    (query reply : string) (w : world) :
  Props.first_reply aenv query w = Agent.Replies reply ->
  Forall (fun call => Props.well_shaped call = true)
         (Agent._extract_function_calls aenv reply) ->
  exists r w',
    Agent.process_query env aenv query w = (r, w') /\
    Props.dispatches (trace w')
    = Props.dispatches (trace w)
      ++ map Props.dispatch_of (Agent._extract_function_calls aenv reply) /\
    (Agent._extract_function_calls aenv reply = [] -> r = Return reply) /\
    (Agent._extract_function_calls aenv reply <> [] ->
     exists results,
       List.length results = List.length (Agent._extract_function_calls aenv reply) /\
       In (EvModel (Agent._create_prompt_with_results aenv query
                      (Props.first_context query w) results))
          (trace w')).
Proof.
  intros Hreply Hshape.
  unfold Props.first_reply, Props.first_prompt in Hreply.
  unfold Agent.process_query, bind, Agent.messages_append, Agent.self_messages,
    Agent.create_message, ret.
  cbn [trace messages].
  fold (Props.first_history query w). fold (Props.first_context query w).
  rewrite Hreply.
  destruct (Agent._extract_function_calls aenv reply) as [| call rest] eqn:Hcalls.
  - eexists. eexists. split; [reflexivity | split; [| split]].
    + cbn [trace]. rewrite dispatches_app. reflexivity.
    + reflexivity.
    + intro H. now contradiction H.
  - destruct (execute_calls_returns (call :: rest) Hshape
                (mkWorld (trace w ++ [EvModel (Agent._create_prompt aenv query
                                                 (Props.first_context query w))])
                         (Props.first_history query w)))
      as (results & w1 & Hrun & Hm & Hlen & Hd).
    rewrite Hrun.
    assert (Hin : forall t,
               In (EvModel (Agent._create_prompt_with_results aenv query
                              (Props.first_context query w) results))
                  (t ++ [EvModel (Agent._create_prompt_with_results aenv query
                                    (Props.first_context query w) results)])).
    { intro t. apply in_or_app. right. now left. }
    assert (Hdispatches :
              Props.dispatches
                (trace w1 ++ [EvModel (Agent._create_prompt_with_results aenv query
                                         (Props.first_context query w) results)])
              = Props.dispatches (trace w) ++ map Props.dispatch_of (call :: rest)).
    { rewrite dispatches_app, Hd. cbn [trace].
      rewrite dispatches_app. simpl. now rewrite !app_nil_r. }
    destruct (Agent.model aenv (trace w1) _) as [answer | text];
      eexists; eexists; (split; [reflexivity | split; [| split]]); cbn [trace];
      try exact Hdispatches; try discriminate;
      intros _; exists results; (split; [exact Hlen | apply Hin]).
Qed.

(** A first decoded block that is no JSON object stops the query: the
    driver raises when it asks the value for its name, before any
    dispatcher call, and the history keeps the question alone. *)
Lemma first_non_object_call_raises
    (query reply : string) (w : world) (call : pyval) (rest : list pyval) :
  Props.first_reply aenv query w = Agent.Replies reply ->
  Agent._extract_function_calls aenv reply = call :: rest ->
  Terms.is_mapping call = false ->
  Agent.process_query env aenv query w
  = (Raise (AttributeError
              ("'" ++ Py.type_name call ++ "' object has no attribute 'get'")%string),
     mkWorld (trace w ++ [EvModel (Props.first_prompt aenv query w)])
             (Props.first_history query w)).
Proof.
  intros Hreply Hcalls Hshape.
  unfold Props.first_reply in Hreply.
  unfold Agent.process_query, bind, Agent.messages_append, Agent.self_messages,
    Agent.create_message, ret.
  cbn [trace messages].
  fold (Props.first_history query w). fold (Props.first_context query w).
  fold (Props.first_prompt aenv query w).
  rewrite Hreply, Hcalls.
  destruct call; try discriminate Hshape; reflexivity.
Qed.

End DriverFacts.

(** ** Runs on the sample inputs *)

Module Runs.

Import Samples.

(** Scenario A: a site lookup whose table keeps columns. *)
Example site_lookup_success :
  Manual.call_function (answering two_rows) (PStr "get_site_data") (PDict site_params) w0
  = (Return (mkEnvelope "success"
               (Some [ [Text "01594440"; NA; Num 12]; [Text "09380000"; Text "-"; NA] ])
               (Some ["site_no"; "flag"; "value"]%string)
               (Some "Successfully retrieved data for site 09380000"%string)
               None),
     mkWorld [ EvDispatch (PStr "get_site_data") (PDict site_params);
               EvOperation "get_site_data" (PDict site_params);
               EvService site_request ] []).
Proof. reflexivity. Qed.

(** Scenario B: a site lookup whose table is empty. *)
Example site_lookup_no_data :
  fst (Manual.call_function (answering no_rows) (PStr "get_site_data") (PDict site_params) w0)
  = Return (Manual.error_response "No data found for site 09380000").
Proof. reflexivity. Qed.

(** Scenario C: the site list reaches the service split. *)
Example discharge_measurements_split_sites :
  trace (snd (Manual.call_function (answering two_rows)
                (PStr "get_discharge_measurements") (PDict two_sites_params) w0))
  = [ EvDispatch (PStr "get_discharge_measurements") (PDict two_sites_params);
      EvOperation "get_discharge_measurements" (PDict two_sites_params);
      EvService two_sites_request ].
Proof. reflexivity. Qed.

(** Scenario E: one block that decodes and one that does not. *)
Example one_good_one_bad_block :
  Agent.findall reply_one_good_one_bad
  = [ (String (Ascii.ascii_of_nat 10) site_call_text
       ++ String (Ascii.ascii_of_nat 10) "")%string;
      "{name: oops"%string ] /\
  Agent._extract_function_calls (replying reply_one_good_one_bad) reply_one_good_one_bad
  = [site_call] /\
  Props.dispatches
    (trace (snd (Agent.process_query (answering two_rows)
                   (replying reply_one_good_one_bad) "q" w0)))
  = [EvDispatch (PStr "get_site_data") (PDict site_params)].
Proof. repeat split; reflexivity. Qed.

(** The history after a query holds the question and the answer. *)
Example history_after_query :
  map role (messages (snd (Agent.process_query (answering two_rows)
                             (replying reply_one_good_one_bad) "q" w0)))
  = ["user"; "assistant"]%string.
Proof. reflexivity. Qed.

(** A table that is empty only after cleaning: the dispatcher file
    reports no data, the tool-serving file reports success with rows
    that have no cells. *)
Example emptied_by_cleaning :
  fst (Manual.get_site_data (answering all_dropped) (PDict site_params) w0)
  = Return (Manual.error_response "No data found for site 09380000") /\
  fst (FastMCP.get_site_data (answering all_dropped) (PStr "09380000") w0)
  = Return (mkEnvelope "success" (Some [[]; []]) (Some [])
              (Some "Successfully retrieved data for site 09380000"%string) None).
Proof. split; reflexivity. Qed.

(** C1, as stated, fails: the table [no_rows] is empty, yet discharge
    measurements answers with status success and empty column names and
    data, not with an error. *)
Lemma discharge_measurements_empty_table_is_success :
  Frame.empty no_rows = true /\
  Manual.get_discharge_measurements (answering no_rows) (PDict two_sites_params) w0
  = (Return (mkEnvelope "success" (Some []) (Some [])
               (Some "Retrieved 0 discharge measurements"%string) None),
     Props.after_call w0 two_sites_request) /\
  "success"%string <> "error"%string.
Proof. repeat split; try reflexivity. discriminate. Qed.

(** C5, as stated, fails: when the service raises [boom] during a site
    lookup, the message is the text behind a label, not the text. *)
Lemma site_lookup_labels_exception_text :
  Manual.get_site_data (failing "boom") (PDict site_params) w0
  = (Return (Manual.error_response "Error retrieving site data: boom"),
     Props.after_call w0 site_request) /\
  Some "Error retrieving site data: boom"%string <> Some "boom"%string.
Proof. split; [reflexivity | discriminate]. Qed.

(** C8 at the failing input: the block [42] decodes as JSON, so it is
    kept among the extracted calls; the driver then raises when it asks
    the number for its name, and no dispatcher call is made for the
    block. *)
Lemma number_block_raises_without_dispatch :
  Props.decodable_blocks (replying reply_number) reply_number = ["42"%string] /\
  fst (Agent.process_query (answering two_rows) (replying reply_number) "q" w0)
  = Raise (AttributeError "'int' object has no attribute 'get'") /\
  Props.dispatches
    (trace (snd (Agent.process_query (answering two_rows) (replying reply_number) "q" w0)))
  = [].
Proof. repeat split; reflexivity. Qed.

End Runs.

(** ** The theorems at the sample inputs *)

Module Witnesses.

Import Samples.

(** The column [flag] of the two-row sample survives with a present value
    and a value that is not the sentinel. *)
Lemma sanitize_columns_and_rows_witness :
  In ("flag"%string, [NA; Text "-"]) (columns (Frame.sanitize two_rows)) /\
  (In ("flag"%string, [NA; Text "-"]) (columns two_rows) /\
   existsb Frame.notna [NA; Text "-"] = true /\
   existsb Frame.ne_sentinel [NA; Text "-"] = true).
Proof.
  split.
  - simpl. right. left. reflexivity.
  - apply (proj1 (sanitize_columns_and_rows two_rows) ("flag"%string, [NA; Text "-"])).
    simpl. right. left. reflexivity.
Defined.

(** A site lookup answered by the table without rows. *)
Lemma empty_table_is_error_when_checked_witness :
  Frame.empty no_rows = true /\
  exists e,
    fst (Manual.get_site_data (answering no_rows) (PDict site_params) w0) = Return e /\
    status e = "error"%string /\
    message e = Some "No data found for site 09380000"%string /\
    data e = None /\
    column_names e = None.
Proof.
  split; [reflexivity |].
  apply (empty_table_is_error_when_checked (answering no_rows)
           "get_site_data" (Manual.get_site_data (answering no_rows)) site_params w0
           (snd (Manual.get_site_data (answering no_rows) (PDict site_params) w0))
           (fst (Manual.get_site_data (answering no_rows) (PDict site_params) w0))
           site_request no_rows).
  - simpl. left. reflexivity.
  - reflexivity.
  - reflexivity.
  - reflexivity.
  - reflexivity.
Defined.

(** A site lookup during which the service raises. *)
Lemma service_error_is_reported_witness :
  nwis (failing "boom") (trace w0) site_request = Raises "boom" /\
  exists e,
    fst (Manual.get_site_data (failing "boom") (PDict site_params) w0) = Return e /\
    status e = "error"%string /\
    message e = Some "Error retrieving site data: boom"%string /\
    data e = None /\
    column_names e = None.
Proof.
  split; [reflexivity |].
  apply (service_error_is_reported (failing "boom")
           "get_site_data" (Manual.get_site_data (failing "boom")) site_params w0
           (snd (Manual.get_site_data (failing "boom") (PDict site_params) w0))
           (fst (Manual.get_site_data (failing "boom") (PDict site_params) w0))
           site_request "boom").
  - simpl. left. reflexivity.
  - reflexivity.
  - reflexivity.
  - reflexivity.
Defined.

(** Discharge measurements answered by the table without rows. *)
Lemma zero_rows_give_empty_success_witness :
  (Frame.well_formed no_rows = true /\ nrows no_rows = 0) /\
  Frame.sanitize no_rows = mkFrame 0 [] /\
  exists e,
    fst (Manual.get_discharge_measurements (answering no_rows)
           (PDict two_sites_params) w0) = Return e /\
    status e = "success"%string /\
    column_names e = Some [] /\
    data e = Some [].
Proof.
  split; [split; reflexivity |].
  destruct (zero_rows_give_empty_success (answering no_rows)
              "get_discharge_measurements"
              (Manual.get_discharge_measurements (answering no_rows))
              two_sites_params w0
              (snd (Manual.get_discharge_measurements (answering no_rows)
                      (PDict two_sites_params) w0))
              (fst (Manual.get_discharge_measurements (answering no_rows)
                      (PDict two_sites_params) w0))
              two_sites_request no_rows)
    as (Hclean & _ & Henvelope).
  - reflexivity.
  - reflexivity.
  - simpl. left. reflexivity.
  - reflexivity.
  - reflexivity.
  - reflexivity.
  - split; [exact Hclean | exact Henvelope].
Defined.


(** Discharge measurements with the empty string, and with nothing, for
    the sites. *)
Lemma empty_sites_string_reaches_service_witness :
  Py.get blank_sites_params "sites" = PStr "" /\
  snd (Manual.get_discharge_measurements (answering two_rows) (PDict blank_sites_params) w0)
  = Props.after_call w0
      (mkCall "get_discharge_measurements"
              [("sites", PList [PStr ""]); ("start", PNone); ("end", PNone)]) /\
  Manual.get_discharge_measurements (answering two_rows) (PDict []) w0
  = (Return (Manual.error_response "Sites parameter is required"), w0).
Proof.
  assert (Hin : In ("get_discharge_measurements"%string,
                    Manual.get_discharge_measurements (answering two_rows))
                   (Props.sites_operations (answering two_rows))).
  { simpl. left. reflexivity. }
  split; [reflexivity | split].
  - apply (proj1 (empty_sites_string_reaches_service (answering two_rows)
                    "get_discharge_measurements"
                    (Manual.get_discharge_measurements (answering two_rows))
                    blank_sites_params w0 Hin)).
    reflexivity.
  - apply (proj2 (empty_sites_string_reaches_service (answering two_rows)
                    "get_discharge_measurements"
                    (Manual.get_discharge_measurements (answering two_rows))
                    [] w0 Hin)).
    split; reflexivity.
Defined.


(** A query whose reply holds one block that decodes and one that does
    not. *)
Lemma decodable_well_shaped_blocks_dispatch_once_witness :
  Forall (fun call => Props.well_shaped call = true)
         (Agent._extract_function_calls (replying reply_one_good_one_bad)
            reply_one_good_one_bad) /\
  exists r w',
    Agent.process_query (answering two_rows) (replying reply_one_good_one_bad) "q" w0
    = (r, w') /\
    Props.dispatches (trace w')
    = [EvDispatch (PStr "get_site_data") (PDict site_params)].
Proof.
  assert (Hshape : Forall (fun call => Props.well_shaped call = true)
                     (Agent._extract_function_calls (replying reply_one_good_one_bad)
                        reply_one_good_one_bad)).
  { change (Forall (fun call => Props.well_shaped call = true) [site_call]).
    constructor; [reflexivity | constructor]. }
  split; [exact Hshape |].
  destruct (decodable_well_shaped_blocks_dispatch_once (answering two_rows)
              (replying reply_one_good_one_bad) "q" reply_one_good_one_bad w0
              eq_refl Hshape)
    as (r & w' & Hrun & Hdispatches & _).
  exists r, w'. split; [exact Hrun | exact Hdispatches].
Defined.

End Witnesses.

(** * Further properties *)

(** ** Cleaning a table *)

Module CleaningFacts.

Lemma existsb_forallb_negb {A : Type} (p : A -> bool) (l : list A) :
  existsb p l = negb (forallb (fun x => negb (p x)) l).
Proof.
  induction l as [| x l IH]; simpl; [reflexivity |].
  rewrite IH. now destruct (p x).
Qed.

Lemma filter_swap {A : Type} (p q : A -> bool) (l : list A) :
  filter p (filter q l) = filter q (filter p l).
Proof.
  rewrite !SanitizerFacts.filter_twice. apply filter_ext.
  intro x. apply andb_comm.
Qed.

Lemma filter_well_formed (p : string * list cell -> bool) (n : nat)
    (cols : list (string * list cell)) :
  forallb (fun c => Nat.eqb (List.length (snd c)) n) cols = true ->
  forallb (fun c => Nat.eqb (List.length (snd c)) n) (filter p cols) = true.
Proof.
  induction cols as [| c cols IH]; simpl; intro H; [reflexivity |].
  apply andb_true_iff in H. destruct H as [Hc Hrest].
  destruct (p c); simpl; [rewrite Hc |]; auto.
Qed.

Lemma labels_of_filter (p : string * list cell -> bool)
    (cols : list (string * list cell)) (label : string) :
  In label (map fst (filter p cols)) -> In label (map fst cols).
Proof.
  intro H. apply in_map_iff in H. destruct H as [c [<- Hc]].
  apply filter_In in Hc. apply in_map. tauto.
Qed.

Lemma dropped_labels_are_gone (labels : list string) (df : DataFrame) (label : string) :
  In label (Frame.columns_tolist (Frame.drop labels df)) -> ~ In label labels.
Proof.
  unfold Frame.columns_tolist, Frame.drop. simpl. intros H Hin.
  apply in_map_iff in H. destruct H as [c [<- Hc]].
  apply filter_In in Hc. destruct Hc as [_ Hkeep].
  apply negb_true_iff in Hkeep.
  assert (Hex : existsb (String.eqb (fst c)) labels = true).
  { apply existsb_exists. exists (fst c). split; [exact Hin | apply String.eqb_refl]. }
  congruence.
Qed.

End CleaningFacts.

(** X1: a column is still there after cleaning exactly when it is
    neither entirely missing nor entirely the sentinel; a column without
    cells is both and is removed. *)
Theorem column_survives_iff (df : DataFrame) (c : string * list cell) :
  In c (columns (Frame.sanitize df))
  <-> In c (columns df) /\
      Terms.all_missing (snd c) = false /\
      Terms.all_sentinel (snd c) = false.
Proof.
  rewrite SanitizerFacts.sanitize_columns, filter_In, andb_true_iff.
  unfold Terms.all_missing, Terms.all_sentinel, Terms.isna, Terms.is_sentinel.
  rewrite !CleaningFacts.existsb_forallb_negb, !negb_true_iff.
  tauto.
Qed.

(** X2: the two cleaning statements can be run in either order, running
    them again changes nothing, and a table whose columns all have one
    cell per row stays such a table. *)
Theorem cleaning_commutes_and_is_idempotent (df : DataFrame) :
  Frame.loc_any_ne_sentinel (Frame.dropna_all df)
  = Frame.dropna_all (Frame.loc_any_ne_sentinel df) /\
  Frame.sanitize (Frame.sanitize df) = Frame.sanitize df /\
  (Frame.well_formed df = true -> Frame.well_formed (Frame.sanitize df) = true).
Proof.
  split; [| split].
  - unfold Frame.loc_any_ne_sentinel, Frame.dropna_all. simpl.
    f_equal. apply CleaningFacts.filter_swap.
  - unfold Frame.sanitize, Frame.loc_any_ne_sentinel, Frame.dropna_all. simpl.
    f_equal. rewrite !SanitizerFacts.filter_twice. apply filter_ext.
    intro c. now destruct (existsb Frame.notna (snd c)),
                          (existsb Frame.ne_sentinel (snd c)).
  - unfold Frame.well_formed, Frame.sanitize, Frame.loc_any_ne_sentinel,
      Frame.dropna_all. simpl. intro H.
    now apply CleaningFacts.filter_well_formed, CleaningFacts.filter_well_formed.
Qed.

(** ** Splitting and stripping *)

Module TextFacts.

Lemma join_cons (sep x : string) (l : list string) :
  l <> [] -> PyStr.join sep (x :: l) = (x ++ sep ++ PyStr.join sep l)%string.
Proof. destruct l; [contradiction | reflexivity]. Qed.

Lemma join_cons_char (sep : string) (c : ascii) (x : string) (l : list string) :
  PyStr.join sep (String c x :: l) = String c (PyStr.join sep (x :: l)).
Proof. destruct l; reflexivity. Qed.

Lemma rev_append (a b : string) :
  PyStr.rev (a ++ b) = (PyStr.rev b ++ PyStr.rev a)%string.
Proof.
  induction a as [| c a IH]; simpl.
  - now rewrite StringFacts.append_nil_r.
  - now rewrite IH, StringFacts.append_assoc.
Qed.

Lemma rev_involutive (s : string) : PyStr.rev (PyStr.rev s) = s.
Proof.
  induction s as [| c s IH]; simpl; [reflexivity |].
  now rewrite rev_append, IH.
Qed.

(** *** Dropping leading characters *)

Section Dropping.

Variable p1 : ascii -> bool.
Variable p2 : ascii -> ascii -> bool.
Variable p3 : ascii -> ascii -> ascii -> bool.

Lemma made_of_app (a b : string) :
  Terms.made_of p1 p2 p3 a -> Terms.made_of p1 p2 p3 b ->
  Terms.made_of p1 p2 p3 (a ++ b)%string.
Proof.
  intros Ha Hb. induction Ha; simpl.
  - exact Hb.
  - now apply Terms.made_of_one.
  - now apply Terms.made_of_two.
  - now apply Terms.made_of_three.
Qed.

(** What [drop_leading] drops is made of accepted characters, and what
    it leaves starts with none. *)
Lemma drop_leading_bounded (n : nat) (s : string) :
  String.length s <= n ->
  exists pre,
    s = (pre ++ PyStr.drop_leading p1 p2 p3 s)%string /\
    Terms.made_of p1 p2 p3 pre /\
    Terms.starts_with p1 p2 p3 (PyStr.drop_leading p1 p2 p3 s) = false.
Proof.
  revert s. induction n as [| n IH]; intros s Hlen.
  - destruct s; [| simpl in Hlen; lia].
    exists ""%string. repeat split. constructor.
  - destruct s as [| c1 s1].
    { exists ""%string. repeat split. constructor. }
    simpl in Hlen. simpl PyStr.drop_leading.
    destruct (p1 c1) eqn:H1.
    { destruct (IH s1) as (pre & Hs & Hpre & Hrest); [lia |].
      exists (String c1 pre). split; [| split]; [| | exact Hrest].
      - simpl. now rewrite <- Hs.
      - now apply Terms.made_of_one. }
    destruct s1 as [| c2 s2].
    { exists ""%string. split; [reflexivity | split; [constructor |]].
      simpl. now rewrite H1. }
    simpl in Hlen.
    destruct (p2 c1 c2) eqn:H2.
    { destruct (IH s2) as (pre & Hs & Hpre & Hrest); [lia |].
      exists (String c1 (String c2 pre)). split; [| split]; [| | exact Hrest].
      - simpl. now rewrite <- Hs.
      - now apply Terms.made_of_two. }
    destruct s2 as [| c3 s3].
    { exists ""%string. split; [reflexivity | split; [constructor |]].
      simpl. now rewrite H1, H2. }
    simpl in Hlen.
    destruct (p3 c1 c2 c3) eqn:H3.
    { destruct (IH s3) as (pre & Hs & Hpre & Hrest); [lia |].
      exists (String c1 (String c2 (String c3 pre))).
      split; [| split]; [| | exact Hrest].
      - simpl. now rewrite <- Hs.
      - now apply Terms.made_of_three. }
    exists ""%string. split; [reflexivity | split; [constructor |]].
    simpl. now rewrite H1, H2, H3.
Qed.

Lemma drop_leading_spec (s : string) :
  exists pre,
    s = (pre ++ PyStr.drop_leading p1 p2 p3 s)%string /\
    Terms.made_of p1 p2 p3 pre /\
    Terms.starts_with p1 p2 p3 (PyStr.drop_leading p1 p2 p3 s) = false.
Proof. now apply (drop_leading_bounded (String.length s)). Qed.

(** A text that starts with no accepted character is left as it is. *)
Lemma drop_leading_fixed (s : string) :
  Terms.starts_with p1 p2 p3 s = false -> PyStr.drop_leading p1 p2 p3 s = s.
Proof.
  intro H. destruct s as [| c1 s1]; [reflexivity |].
  simpl in H. apply orb_false_iff in H. destruct H as [H1 H].
  simpl. rewrite H1.
  destruct s1 as [| c2 s2]; [reflexivity |].
  apply orb_false_iff in H. destruct H as [H2 H]. rewrite H2.
  destruct s2 as [| c3 s3]; [reflexivity |].
  now rewrite H.
Qed.

(** A text starts as its first part does. *)
Lemma starts_with_prefix (a b : string) :
  Terms.starts_with p1 p2 p3 a = true ->
  Terms.starts_with p1 p2 p3 (a ++ b)%string = true.
Proof.
  intro H. destruct a as [| c1 a1]; [discriminate |].
  simpl in *. destruct (p1 c1); [reflexivity |]. simpl in *.
  destruct a1 as [| c2 a2]; [discriminate |].
  simpl. destruct (p2 c1 c2); [reflexivity |]. simpl in *.
  destruct a2 as [| c3 a3]; [discriminate |].
  exact H.
Qed.

End Dropping.

(** Reversing a text reverses the bytes of each of its characters. *)
Lemma made_of_rev (p1 : ascii -> bool) (p2 : ascii -> ascii -> bool)
    (p3 : ascii -> ascii -> ascii -> bool) (s : string) :
  Terms.made_of p1 p2 p3 s ->
  Terms.made_of p1 (fun c2 c1 => p2 c1 c2) (fun c3 c2 c1 => p3 c1 c2 c3)
                (PyStr.rev s).
Proof.
  intro H. induction H.
  - constructor.
  - change (String c s) with (String c "" ++ s)%string.
    rewrite rev_append. apply made_of_app; [exact IHmade_of |].
    apply Terms.made_of_one; [assumption | constructor].
  - change (String c1 (String c2 s)) with (String c1 (String c2 "") ++ s)%string.
    rewrite rev_append. apply made_of_app; [exact IHmade_of |].
    apply Terms.made_of_two; [assumption | constructor].
  - change (String c1 (String c2 (String c3 s)))
      with (String c1 (String c2 (String c3 "")) ++ s)%string.
    rewrite rev_append. apply made_of_app; [exact IHmade_of |].
    apply Terms.made_of_three; [assumption | constructor].
Qed.

(** *** The two ends *)

Lemma lstrip_spec (s : string) :
  exists pre,
    s = (pre ++ PyStr.lstrip s)%string /\
    Terms.Whitespace pre /\
    Terms.starts_with_space (PyStr.lstrip s) = false.
Proof. apply drop_leading_spec. Qed.

Lemma rstrip_spec (s : string) :
  exists post,
    s = (PyStr.rstrip s ++ post)%string /\
    Terms.Whitespace post /\
    Terms.ends_with_space (PyStr.rstrip s) = false.
Proof.
  unfold PyStr.rstrip, Terms.ends_with_space.
  destruct (drop_leading_spec PyStr.space1 (fun c2 c1 => PyStr.space2 c1 c2)
              (fun c3 c2 c1 => PyStr.space3 c1 c2 c3) (PyStr.rev s))
    as (pre & Hs & Hpre & Hrest).
  exists (PyStr.rev pre). split; [| split].
  - rewrite <- rev_append, <- Hs. now rewrite rev_involutive.
  - exact (made_of_rev _ _ _ _ Hpre).
  - now rewrite rev_involutive.
Qed.

Lemma lstrip_fixed (s : string) :
  Terms.starts_with_space s = false -> PyStr.lstrip s = s.
Proof. apply drop_leading_fixed. Qed.

Lemma rstrip_fixed (s : string) :
  Terms.ends_with_space s = false -> PyStr.rstrip s = s.
Proof.
  intro H. unfold PyStr.rstrip.
  rewrite drop_leading_fixed by exact H. apply rev_involutive.
Qed.

End TextFacts.

(** X3: splitting on commas loses nothing: joining the pieces with a
    comma gives the text back, no piece holds a comma, and there is one
    piece more than there are commas. *)
Theorem split_then_join (s : string) :
  PyStr.join "," (PyStr.split PyStr.comma s) = s /\
  Forall (fun piece => Terms.has_char PyStr.comma piece = false)
         (PyStr.split PyStr.comma s) /\
  List.length (PyStr.split PyStr.comma s) = S (Terms.count_char PyStr.comma s).
Proof.
  induction s as [| c s (IHjoin & IHfree & IHlen)]; simpl.
  - repeat split. constructor; [reflexivity | constructor].
  - destruct (Ascii.eqb c PyStr.comma) eqn:Hc.
    + apply Ascii.eqb_eq in Hc. subst c. split; [| split].
      * rewrite TextFacts.join_cons by apply StringFacts.split_not_nil.
        simpl. now rewrite IHjoin.
      * constructor; [reflexivity | exact IHfree].
      * simpl. now rewrite IHlen.
    + pose proof (StringFacts.split_not_nil PyStr.comma s) as Hne.
      destruct (PyStr.split PyStr.comma s) as [| piece pieces]; [contradiction |].
      split; [| split].
      * rewrite TextFacts.join_cons_char. now rewrite IHjoin.
      * inversion IHfree as [| ? ? Hpiece Hpieces]; subst.
        constructor; [| exact Hpieces]. simpl. now rewrite Hc, Hpiece.
      * simpl in *. exact IHlen.
Qed.

(** X4: [strip] removes whitespace from both ends and nothing else, with
    the whitespace of Python's [str.isspace], the characters beyond
    ASCII included: the text is a whitespace prefix, the stripped text
    and a whitespace suffix; the stripped text neither starts nor ends
    with a whitespace character, and stripping it again changes
    nothing. *)
Theorem strip_removes_surrounding_whitespace (s : string) :
  (exists pre post,
      s = (pre ++ PyStr.strip s ++ post)%string /\
      Terms.Whitespace pre /\ Terms.Whitespace post) /\
  Terms.starts_with_space (PyStr.strip s) = false /\
  Terms.ends_with_space (PyStr.strip s) = false /\
  PyStr.strip (PyStr.strip s) = PyStr.strip s.
Proof.
  unfold PyStr.strip.
  destruct (TextFacts.lstrip_spec s) as (pre & Hs & Hpre & Hfirst).
  destruct (TextFacts.rstrip_spec (PyStr.lstrip s)) as (post & Ht & Hpost & Hlast).
  assert (Hfirst' :
            Terms.starts_with_space (PyStr.rstrip (PyStr.lstrip s)) = false).
  { destruct (Terms.starts_with_space (PyStr.rstrip (PyStr.lstrip s))) eqn:Hc;
      [| reflexivity].
    rewrite Ht in Hfirst. unfold Terms.starts_with_space in *.
    now rewrite (TextFacts.starts_with_prefix _ _ _ _ post Hc) in Hfirst. }
  split; [| split; [exact Hfirst' | split; [exact Hlast |]]].
  - exists pre, post. split; [| split; assumption].
    rewrite <- Ht. exact Hs.
  - rewrite (TextFacts.lstrip_fixed _ Hfirst'). now apply TextFacts.rstrip_fixed.
Qed.

(** ** Blocks of a reply *)

Module BlockFacts.

(** Two ways to cut one text: the longer first part extends the shorter. *)
Lemma append_split (a b c d : string) :
  (a ++ b)%string = (c ++ d)%string -> String.length a <= String.length c ->
  exists m, c = (a ++ m)%string /\ b = (m ++ d)%string.
Proof.
  revert c. induction a as [| x a IH]; intros c H Hlen.
  - exists c. now split.
  - destruct c as [| y c]; [simpl in Hlen; lia |].
    simpl in H. inversion H; subst y.
    destruct (IH c) as (m & -> & ->); [assumption | simpl in Hlen; lia |].
    exists m. now split.
Qed.

(** [partition] finds the first occurrence: none starts further left. *)
Lemma partition_first (pat s before after : string) :
  PyStr.partition pat s = Some (before, after) ->
  forall a b, s = (a ++ pat ++ b)%string -> String.length before <= String.length a.
Proof.
  revert before. induction s as [| c s IH]; intros before H a b Hs;
    rewrite RegexFacts.partition_equation in H;
    destruct (String.prefix pat _) eqn:Hp.
  - inversion H; subst. simpl. lia.
  - discriminate.
  - inversion H; subst. simpl. lia.
  - destruct (PyStr.partition pat s) as [[b' a'] |] eqn:Hrec; [| discriminate].
    inversion H; subst before after.
    destruct a as [| x a].
    + simpl in Hs. rewrite Hs, RegexFacts.prefix_append in Hp. discriminate.
    + simpl in Hs. inversion Hs; subst x s.
      simpl. apply le_n_S. now apply (IH b' eq_refl a b).
Qed.

Lemma mentions_intro (pre part post : string) :
  Props.mentions (pre ++ part ++ post) part.
Proof. now exists pre, post. Qed.

(** The blocks found with any fuel stand between the tags and hold no
    closing tag. *)
Lemma findall_fuel_blocks (n : nat) (text block : string) :
  In block (Agent.findall_fuel n text) ->
  (exists pre post,
      text = (pre ++ Agent.open_tag ++ block ++ Agent.close_tag ++ post)%string) /\
  ~ Props.mentions block Agent.close_tag.
Proof.
  revert text. induction n as [| n IH]; intros text Hin; [contradiction |].
  simpl in Hin.
  destruct (PyStr.partition Agent.open_tag text) as [[skipped inner] |] eqn:Hopen;
    [| contradiction].
  destruct (PyStr.partition Agent.close_tag inner) as [[captured rest] |] eqn:Hclose;
    [| contradiction].
  pose proof (RegexFacts.partition_sound _ _ _ _ Hopen) as Htext.
  pose proof (RegexFacts.partition_sound _ _ _ _ Hclose) as Hinner.
  destruct Hin as [<- | Hin].
  - split.
    + exists skipped, rest. now rewrite Htext, Hinner.
    + intros (x & y & Hcaptured).
      assert (Hlen : String.length captured <= String.length x).
      { apply (partition_first _ _ _ _ Hclose x (y ++ Agent.close_tag ++ rest)%string).
        rewrite Hinner, Hcaptured. now rewrite !StringFacts.append_assoc. }
      rewrite Hcaptured in Hlen. rewrite !StringFacts.length_append in Hlen.
      simpl in Hlen. lia.
  - destruct (IH rest Hin) as ((pre & post & Hrest) & Hfree). split; [| exact Hfree].
    exists (skipped ++ Agent.open_tag ++ captured ++ Agent.close_tag ++ pre)%string, post.
    rewrite Htext, Hinner, Hrest. now rewrite !StringFacts.append_assoc.
Qed.

Lemma found_block_is_delimited (text block : string) :
  In block (Agent.findall text) ->
  exists pre post,
    text = (pre ++ Agent.open_tag ++ block ++ Agent.close_tag ++ post)%string.
Proof. intro H. now apply (findall_fuel_blocks _ _ _ H). Qed.

End BlockFacts.

(** X5: every block the driver extracts from a reply stands in the reply
    between an opening and a closing tag and holds no closing tag
    itself. *)
Theorem blocks_are_delimited (text block : string) :
  In block (Agent.findall text) ->
  (exists pre post,
      text = (pre ++ Agent.open_tag ++ block ++ Agent.close_tag ++ post)%string) /\
  ~ Props.mentions block Agent.close_tag.
Proof. apply BlockFacts.findall_fuel_blocks. Qed.

(** X6: a reply yields no block exactly when it holds no opening tag
    with a closing tag somewhere behind it. *)
Theorem no_block_iff_no_tag_pair (text : string) :
  Agent.findall text = []
  <-> ~ exists a b c,
          text = (a ++ Agent.open_tag ++ b ++ Agent.close_tag ++ c)%string.
Proof.
  split.
  - intros Hnone (a & b & c & Htext).
    rewrite RegexFacts.findall_equation in Hnone.
    destruct (PyStr.partition Agent.open_tag text) as [[skipped inner] |] eqn:Hopen.
    + pose proof (RegexFacts.partition_sound _ _ _ _ Hopen) as Hcut.
      pose proof (BlockFacts.partition_first _ _ _ _ Hopen a
                    (b ++ Agent.close_tag ++ c)%string Htext) as Hleft.
      rewrite Htext in Hcut.
      destruct (BlockFacts.append_split skipped (Agent.open_tag ++ inner) a
                  (Agent.open_tag ++ b ++ Agent.close_tag ++ c))
        as (m & Ha & Hrest); [now symmetry | exact Hleft |].
      destruct (BlockFacts.append_split Agent.open_tag inner
                  (m ++ Agent.open_tag ++ b) (Agent.close_tag ++ c))
        as (m' & _ & Hinner).
      { rewrite Hrest. now rewrite !StringFacts.append_assoc. }
      { rewrite !StringFacts.length_append. lia. }
      destruct (PyStr.partition Agent.close_tag inner) as [[captured rest] |] eqn:Hclose;
        [discriminate |].
      rewrite Hinner in Hclose.
      exact (RegexFacts.partition_complete _ _ _ Hclose).
    + apply (RegexFacts.partition_complete Agent.open_tag a
               (b ++ Agent.close_tag ++ c)%string).
      now rewrite <- Htext.
  - intro Hnone. destruct (Agent.findall text) as [| block blocks] eqn:Hfound;
      [reflexivity |].
    exfalso. apply Hnone.
    destruct (BlockFacts.found_block_is_delimited text block) as (pre & post & Htext).
    { rewrite Hfound. now left. }
    now exists pre, block, post.
Qed.

(** ** Every operation, every parameter value *)

(** One goal for each entry of a table of operations. *)
Ltac pick_entry Hin :=
  simpl in Hin;
  repeat (destruct Hin as [Hin | Hin]; [inversion Hin; subst; clear Hin |]);
  try contradiction.

(** The shape of a concrete envelope. *)
Ltac shape_of_envelope :=
  unfold Terms.envelope_shape; simpl;
  split; [discriminate | split; [reflexivity |]];
  first [ left; repeat split; first [reflexivity | discriminate]
        | right; repeat split; reflexivity ].

Ltac rows_of_envelope :=
  unfold Terms.rectangular; simpl;
  let cols := fresh "cols" in
  let rows := fresh "rows" in
  let Hc := fresh "Hc" in
  let Hd := fresh "Hd" in
  intros cols rows Hc Hd;
  first [ discriminate Hc
        | inversion Hc; inversion Hd; subst;
          apply Forall_forall; intros r Hr;
          exact (SanitizerFacts.rows_match_labels _ _ Hr) ].

Section EveryOperation.

Variable env : Env.

(** An operation leaves the history alone and calls the service at most
    once, through the function of its row. *)
Lemma operation_frame (fn : string) (op : pyval -> Py envelope)
    (params : pyval) (w : world) :
  In (fn, op) (Manual.functions env) ->
  exists r evs,
    op params w = (r, mkWorld (trace w ++ evs) (messages w)) /\
    (evs = [] \/
     exists kwargs, evs = [EvService (mkCall (Terms.nwis_function fn) kwargs)]).
Proof.
  intro Hin. destruct w as [t m].
  unfold Manual.functions in Hin.
  pick_entry Hin;
    match goal with
    | |- context [?o params (mkWorld t m)] =>
        remember (o params (mkWorld t m)) as run eqn:Hrun
    end;
    destruct params; py_unfold Hrun; py_cases Hrun; subst run; cbn [trace messages].
  all: first [ eexists; exists []; rewrite app_nil_r; split; [reflexivity | now left]
             | eexists; eexists; split;
               [reflexivity | right; eexists; reflexivity] ].
Qed.

(** Whatever envelope an operation returns is well shaped. *)
Lemma operation_envelope (fn : string) (op : pyval -> Py envelope)
    (params : pyval) (w w' : world) (e : envelope) :
  In (fn, op) (Manual.functions env) ->
  op params w = (Return e, w') ->
  Terms.envelope_shape e /\ Terms.rectangular e.
Proof.
  intros Hin Hrun.
  unfold Manual.functions in Hin. pick_entry Hin.
  all: destruct params; py_unfold Hrun; py_cases Hrun.
  all: inversion Hrun; subst; clear Hrun.
  all: split; [shape_of_envelope | rows_of_envelope].
Qed.

(** The three ways a dispatcher call can go. *)
Lemma call_function_cases (fn params : pyval) (w : world) :
  let w1 := mkWorld (trace w ++ [EvDispatch fn params]) (messages w) in
  (exists text, Manual.call_function env fn params w = (Raise (TypeError text), w1)) \/
  (exists msg,
      Manual.call_function env fn params w = (Return (Manual.error_response msg), w1)) \/
  (exists s op,
      fn = PStr s /\ In (s, op) (Manual.functions env) /\
      Manual.call_function env fn params w
      = op params (mkWorld (trace w ++ [EvDispatch fn params; EvOperation s params])
                           (messages w))).
Proof.
  intro w1. subst w1.
  unfold Manual.call_function, Manual.lookup_function, bind, emit, ret, raise.
  cbn [trace messages].
  destruct fn as [| b | z | s | l | dd];
    try (right; left; eexists; reflexivity);
    try (left; eexists; reflexivity).
  destruct (Py.lookup s (Manual.functions env)) as [op |] eqn:Hlookup.
  - right. right. exists s, op. split; [reflexivity |].
    split; [now apply lookup_present |].
    cbn [trace messages]. now rewrite <- app_assoc.
  - right. left. eexists. reflexivity.
Qed.

End EveryOperation.

Section DispatcherInvariants.

Variable env : Env.

(** X7: whatever the name and the parameters, an envelope that comes
    back from the dispatcher has status success or error, carries a
    message and no metadata, and has column names and data together on
    success and neither on error. *)
Theorem dispatcher_envelope_shape (fn params : pyval) (w w' : world) (e : envelope) :
  Manual.call_function env fn params w = (Return e, w') ->
  Terms.envelope_shape e.
Proof.
  intro Hrun.
  destruct (call_function_cases env fn params w)
    as [(text & H) | [(msg & H) | (s & op & _ & Hin & H)]];
    rewrite H in Hrun.
  - discriminate.
  - inversion Hrun; subst. shape_of_envelope.
  - exact (proj1 (operation_envelope env s op params _ w' e Hin Hrun)).
Qed.

(** X8: in every envelope that comes back from the dispatcher with
    column names and data, each row has exactly one cell for each
    column name. *)
Theorem dispatcher_envelope_is_rectangular
    (fn params : pyval) (w w' : world) (e : envelope) :
  Manual.call_function env fn params w = (Return e, w') ->
  Terms.rectangular e.
Proof.
  intro Hrun.
  destruct (call_function_cases env fn params w)
    as [(text & H) | [(msg & H) | (s & op & _ & Hin & H)]];
    rewrite H in Hrun.
  - discriminate.
  - inversion Hrun; subst. rows_of_envelope.
  - exact (proj2 (operation_envelope env s op params _ w' e Hin Hrun)).
Qed.

(** X9: for a registered name the dispatcher returns exactly what the
    operation returns on the same parameters, an exception included; it
    adds nothing but its own record of the call. *)
Theorem dispatcher_passes_through
    (fn : string) (op : pyval -> Py envelope) (params : pyval) (w : world) :
  In (fn, op) (Manual.functions env) ->
  Manual.call_function env (PStr fn) params w
  = op params (mkWorld (trace w ++ [EvDispatch (PStr fn) params; EvOperation fn params])
                       (messages w)).
Proof.
  intro Hin.
  replace (trace w ++ [EvDispatch (PStr fn) params; EvOperation fn params])
    with ((trace w ++ [EvDispatch (PStr fn) params]) ++ [EvOperation fn params])
    by now rewrite <- app_assoc.
  unfold Manual.functions in Hin. pick_entry Hin; reflexivity.
Qed.

(** X10: a dispatcher call leaves the history alone and makes at most
    one call of the data service; the call goes to [get_record] for the
    site lookup, to [get_dv] for daily values, to [get_iv] for
    instantaneous values and to the function of the same name for every
    other operation. *)
Theorem dispatch_calls_service_at_most_once (fn params : pyval) (w : world) :
  messages (snd (Manual.call_function env fn params w)) = messages w /\
  (Terms.services (trace (snd (Manual.call_function env fn params w)))
   = Terms.services (trace w) \/
   exists s kwargs,
     fn = PStr s /\
     Terms.services (trace (snd (Manual.call_function env fn params w)))
     = Terms.services (trace w) ++ [EvService (mkCall (Terms.nwis_function s) kwargs)]).
Proof.
  assert (Hplain : forall evs,
             Terms.services evs = [] ->
             Terms.services (trace w ++ evs) = Terms.services (trace w)).
  { intros evs H. unfold Terms.services in *. now rewrite filter_app, H, app_nil_r. }
  destruct (call_function_cases env fn params w)
    as [(text & H) | [(msg & H) | (s & op & Hfn & Hin & H)]];
    rewrite H; cbn [snd trace messages].
  - split; [reflexivity | left]. now apply Hplain.
  - split; [reflexivity | left]. now apply Hplain.
  - destruct (operation_frame env s op params
                (mkWorld (trace w ++ [EvDispatch fn params; EvOperation s params])
                         (messages w)) Hin)
      as (r & evs & Hop & Hevs).
    rewrite Hop. cbn [snd trace messages]. split; [reflexivity |].
    rewrite <- app_assoc.
    destruct Hevs as [-> | (kwargs & ->)].
    + left. now apply Hplain.
    + right. exists s, kwargs. split; [exact Hfn |].
      unfold Terms.services. now rewrite filter_app.
Qed.

End DispatcherInvariants.

(** ** What each operation asks of its parameters *)

Section ParameterTests.

Variable env : Env.

Lemma values_length (df : DataFrame) :
  List.length (Frame.values_tolist (Frame.loc_any_ne_sentinel (Frame.dropna_all df)))
  = nrows df.
Proof. unfold Frame.values_tolist. now rewrite length_map, length_seq. Qed.

(** X11: the operations whose message counts the records report the
    number of rows the service returned, which is also the number of
    rows in the data of the envelope, whatever columns the cleaning
    removed. *)
Theorem row_count_is_reported
    (fn : string) (op : pyval -> Py envelope) (before after : string)
    (d : dict) (w w' : world) (r : outcome envelope) (c : service_call)
    (df : DataFrame) :
  In (fn, op, (before, after)) (Terms.counting env d) ->
  op (PDict d) w = (r, w') ->
  trace w' = trace w ++ [EvService c] ->
  nwis env (trace w) c = Table df ->
  exists e rows,
    r = Return e /\
    status e = "success"%string /\
    data e = Some rows /\
    List.length rows = nrows df /\
    message e = Some (before ++ PyStr.of_nat (nrows df) ++ after)%string.
Proof.
  intros Hin Hrun Htrace Hsvc.
  unfold Terms.counting in Hin. pick_entry Hin.
  all: py_unfold Hrun; py_cases Hrun.
  all: inversion Hrun; subst; clear Hrun; simpl in Htrace.
  all: try (exfalso; eapply app_one_neq; eassumption).
  all: apply app_one_inj in Htrace; inversion Htrace; subst.
  all: same_answer Hsvc.
  all: eexists; eexists; split; [reflexivity |]; simpl.
  all: rewrite !values_length; repeat split; reflexivity.
Qed.




(** The list of sites is true when the value given is a string or is
    true. *)
Lemma sites_truth (sites : pyval) :
  Py.truthy (match sites with
             | PStr s => Py.split_commas s
             | _ => sites
             end)
  = Py.is_str sites || Py.truthy sites.
Proof.
  destruct sites; try reflexivity.
  simpl Py.is_str. rewrite orb_true_l. apply StringFacts.split_commas_truthy.
Qed.

(** X14: [get_info] calls the service exactly when [sites] is a string
    (the empty one included) or a true value, or one of the ten filters
    from [stateCd] to [siteType] has a true value; [siteOutput] and
    [seriesCatalogOutput] do not count.  The service is given the
    caller's mapping as it came. *)
Theorem get_info_wants_one_filter (d : dict) (w : world) :
  (Py.is_str (Py.get d "sites") || Py.truthy (Py.get d "sites")
   || existsb (fun k => Py.truthy (Py.get d k)) Terms.info_filters = true ->
   snd (Manual.get_info env (PDict d) w) = Props.after_call w (mkCall "get_info" d)) /\
  (Py.is_str (Py.get d "sites") || Py.truthy (Py.get d "sites")
   || existsb (fun k => Py.truthy (Py.get d k)) Terms.info_filters = false ->
   Manual.get_info env (PDict d) w
   = (Return (Manual.error_response "At least one of the parameters is required"), w)).
Proof.
  py_unfold_goal. unfold Py.any, Terms.info_filters. cbn [existsb].
  rewrite sites_truth, <- orb_assoc.
  split; intro Htest; rewrite Htest; cbv beta iota delta [negb].
  - destruct (nwis env _ _); reflexivity.
  - reflexivity.
Qed.

(** X15: the five operations that unpack the parameter mapping into the
    call give the service exactly the caller's mapping: whatever list
    they split off a comma-separated value stays behind.  Generic record
    fetch, statistics and site search test nothing and call the service
    for every mapping, the empty one included. *)
Theorem unpacked_mapping_is_forwarded
    (fn : string) (op : pyval -> Py envelope) (d : dict) (w : world) :
  In (fn, op) (Terms.unpacking env) ->
  (forall r w' c,
      op (PDict d) w = (r, w') -> trace w' = trace w ++ [EvService c] ->
      c = mkCall fn d) /\
  (fn <> "get_info"%string -> fn <> "get_water_use"%string ->
   snd (op (PDict d) w) = Props.after_call w (mkCall fn d)).
Proof.
  intro Hin. unfold Terms.unpacking in Hin. pick_entry Hin.
  all: split.
  all: try (intros r w' c Hrun Htrace; py_unfold Hrun; py_cases Hrun;
            inversion Hrun; subst; clear Hrun; simpl in Htrace;
            try (exfalso; eapply app_one_neq; eassumption);
            apply app_one_inj in Htrace; now inversion Htrace).
  all: intros Hinfo Hwater; try (now contradiction Hinfo); try (now contradiction Hwater).
  all: py_unfold_goal; destruct (nwis env _ _); reflexivity.
Qed.



(** X18: the columns [state_cd] and [county_cd] never appear among the
    column names of a water-use envelope. *)
Theorem water_use_hides_internal_columns
    (params : pyval) (w w' : world) (e : envelope) (cols : list string) :
  Manual.get_water_use env params w = (Return e, w') ->
  column_names e = Some cols ->
  ~ In "state_cd"%string cols /\ ~ In "county_cd"%string cols.
Proof.
  intros Hrun Hcols.
  destruct params; py_unfold Hrun; py_cases Hrun.
  all: inversion Hrun; subst; clear Hrun; simpl in Hcols; try discriminate Hcols.
  inversion Hcols; subst cols; clear Hcols.
  assert (Hgone : forall label,
             In label ["state_cd"; "county_cd"]%string ->
             ~ In label (Frame.columns_tolist
                           (Frame.loc_any_ne_sentinel
                              (Frame.dropna_all
                                 (Frame.drop ["state_cd"; "county_cd"]%string df))))).
  { intros label Hlabel Hin.
    unfold Frame.columns_tolist, Frame.loc_any_ne_sentinel, Frame.dropna_all in Hin.
    cbn [columns] in Hin.
    apply CleaningFacts.labels_of_filter, CleaningFacts.labels_of_filter in Hin.
    exact (CleaningFacts.dropped_labels_are_gone
             ["state_cd"; "county_cd"]%string df label Hin Hlabel). }
  split; apply Hgone; simpl; tauto.
Qed.

End ParameterTests.

(** ** The tool-serving variant beside the dispatcher file *)

Section ToolsAndOperations.

Variable env : Env.

(** X19: the tool [what_sites] gives the service exactly the filters
    that have a true value, in the order state, site type, county,
    hydrologic unit; a filter that is [None] or empty is left out, and
    with no filter at all the service is still called. *)
Theorem tool_what_sites_forwards_true_filters
    (stateCd siteType county huc : pyval) (w : world) :
  snd (FastMCP.what_sites env stateCd siteType county huc w)
  = Props.after_call w
      (mkCall "what_sites"
              (filter (fun kv => Py.truthy (snd kv))
                      (Terms.site_filters stateCd siteType county huc))).
Proof.
  unfold FastMCP.what_sites, try_except, bind, call_nwis, ret, Terms.site_filters.
  cbn [filter snd].
  destruct (Py.truthy stateCd), (Py.truthy siteType), (Py.truthy county),
    (Py.truthy huc); cbn [app]; destruct (nwis env _ _); reflexivity.
Qed.

(** X20: for discharge measurements, discharge peaks and groundwater
    levels the operation of the dispatcher file and the tool of the
    tool-serving file do the same whenever the operation accepts the
    sites: the same service call and the same envelope.  Where the
    operation rejects the sites, the tool still calls the service, with
    the value it was given. *)
Theorem site_list_tools_agree_with_operations
    (fn : string) (op : pyval -> Py envelope)
    (tool : pyval -> pyval -> pyval -> Py envelope) (d : dict) (w : world) :
  In (fn, op, tool) (Terms.site_list_pairs env) ->
  (Py.is_str (Py.get d "sites") || Py.truthy (Py.get d "sites") = true ->
   op (PDict d) w = tool (Py.get d "sites") (Py.get d "start") (Py.get d "end") w) /\
  (Py.is_str (Py.get d "sites") || Py.truthy (Py.get d "sites") = false ->
   snd (op (PDict d) w) = w /\
   snd (tool (Py.get d "sites") (Py.get d "start") (Py.get d "end") w)
   = Props.after_call w
       (mkCall fn [ ("sites", Py.get d "sites");
                    ("start", Py.get d "start"); ("end", Py.get d "end") ])).
Proof.
  intro Hin. unfold Terms.site_list_pairs in Hin. pick_entry Hin.
  all: split; intro Hsites.
  all: py_unfold_goal;
    unfold FastMCP.get_discharge_measurements, FastMCP.get_discharge_peaks,
      FastMCP.get_gwlevels, FastMCP._format_dataframe_result,
      FastMCP.error_result, FastMCP.sites_list_of, Frame.len,
      try_except, bind, call_nwis, ret.
  all: rewrite sites_truth, Hsites;
    try change (negb true) with false; try change (negb false) with true;
    cbv beta iota.
  all: try (destruct (nwis env _ _); cbv beta iota; rewrite ?values_length; reflexivity).
  all: split; [reflexivity |].
  all: destruct (Py.get d "sites"); try discriminate Hsites;
    destruct (nwis env _ _); reflexivity.
Qed.

(** X21: the site lookup of the two files differs in where it tests for
    emptiness: the operation of the dispatcher file tests the table
    after the cleaning, the tool of the tool-serving file tests it
    before.  For a true site code they return the same envelope
    unless the service answers a table that is not empty and that the
    cleaning empties; then the operation reports that no data was found
    and the tool reports success, with no column and no row. *)
Theorem site_lookup_tool_agrees_unless_emptied (d : dict) (w : world) :
  Py.truthy (Py.get d "site_code") = true ->
  let site_code := Py.get d "site_code" in
  let request := mkCall "get_record" [("sites", site_code); ("service", PStr "site")] in
  let nothing :=
    Manual.error_response ("No data found for site " ++ str env site_code)%string in
  let found df :=
    FastMCP._format_dataframe_result
      df ("Successfully retrieved data for site " ++ str env site_code)%string in
  ((forall df,
       nwis env (trace w) request = Table df ->
       Frame.empty (Frame.sanitize df) = Frame.empty df) ->
   Manual.get_site_data env (PDict d) w = FastMCP.get_site_data env site_code w) /\
  (forall df,
      nwis env (trace w) request = Table df ->
      Manual.get_site_data env (PDict d) w
      = (Return (if Frame.empty (Frame.sanitize df) then nothing else found df),
         Props.after_call w request) /\
      FastMCP.get_site_data env site_code w
      = (Return (if Frame.empty df then nothing else found df),
         Props.after_call w request) /\
      (Frame.empty df = false -> Frame.empty (Frame.sanitize df) = true ->
       status (found df) = "success"%string /\
       column_names (found df) = Some [] /\
       data (found df) = Some (Frame.values_tolist (Frame.sanitize df)) /\
       Manual.get_site_data env (PDict d) w
       <> FastMCP.get_site_data env site_code w)).
Proof.
  intro Hcode. cbv zeta.
  assert (Hboth : forall df,
             nwis env (trace w)
                  (mkCall "get_record"
                          [("sites", Py.get d "site_code"); ("service", PStr "site")])
             = Table df ->
             Manual.get_site_data env (PDict d) w
             = (Return (if Frame.empty (Frame.sanitize df)
                        then Manual.error_response
                               ("No data found for site "
                                ++ str env (Py.get d "site_code"))%string
                        else FastMCP._format_dataframe_result df
                               ("Successfully retrieved data for site "
                                ++ str env (Py.get d "site_code"))%string),
                Props.after_call w
                  (mkCall "get_record"
                          [("sites", Py.get d "site_code"); ("service", PStr "site")])) /\
             FastMCP.get_site_data env (Py.get d "site_code") w
             = (Return (if Frame.empty df
                        then Manual.error_response
                               ("No data found for site "
                                ++ str env (Py.get d "site_code"))%string
                        else FastMCP._format_dataframe_result df
                               ("Successfully retrieved data for site "
                                ++ str env (Py.get d "site_code"))%string),
                Props.after_call w
                  (mkCall "get_record"
                          [("sites", Py.get d "site_code"); ("service", PStr "site")]))).
  { intros df Hsvc. py_unfold_goal.
    unfold FastMCP.get_site_data, FastMCP._format_dataframe_result, FastMCP.error_result,
      Manual.error_response, Manual._format_response, Props.after_call, Frame.sanitize,
      try_except, bind, call_nwis, ret.
    rewrite Hcode. change (negb true) with false. cbv beta iota.
    rewrite !Hsvc. cbv beta iota.
    split.
    - destruct (Frame.empty (Frame.loc_any_ne_sentinel (Frame.dropna_all df)));
        reflexivity.
    - destruct (Frame.empty df); reflexivity. }
  split.
  - intro Hsame. py_unfold_goal.
    unfold FastMCP.get_site_data, FastMCP._format_dataframe_result, FastMCP.error_result,
      try_except, bind, call_nwis, ret.
    rewrite Hcode. change (negb true) with false. cbv beta iota.
    destruct (nwis env _ _) as [df | text] eqn:Hsvc; cbv beta iota; [| reflexivity].
    specialize (Hsame df eq_refl). unfold Frame.sanitize in Hsame. rewrite Hsame.
    destruct (Frame.empty df); reflexivity.
  - intros df Hsvc. destruct (Hboth df Hsvc) as [Hop Htool].
    split; [exact Hop | split; [exact Htool |]].
    intros Hfull Hcleaned.
    assert (Hcols : columns (Frame.sanitize df) = []).
    { unfold Frame.empty in Hcleaned, Hfull.
      apply orb_true_iff in Hcleaned. apply orb_false_iff in Hfull.
      destruct Hfull as [Hrows _]. destruct Hcleaned as [Hzero | Hnone].
      - unfold Frame.sanitize, Frame.loc_any_ne_sentinel, Frame.dropna_all in Hzero.
        simpl in Hzero. congruence.
      - destruct (columns (Frame.sanitize df)); [reflexivity | discriminate]. }
    split; [reflexivity | split; [| split; [reflexivity |]]].
    + unfold FastMCP._format_dataframe_result. cbn [column_names].
      unfold Frame.sanitize in Hcols. unfold Frame.columns_tolist.
      now rewrite Hcols.
    + rewrite Hop, Htool, Hcleaned, Hfull. discriminate.
Qed.

End ToolsAndOperations.

(** ** The driver over every reply *)

Section DriverInvariants.

Variable env : Env.
Variable aenv : Agent.AgentEnv.

Lemma models_app (t1 t2 : list event) :
  Terms.models (t1 ++ t2) = Terms.models t1 ++ Terms.models t2.
Proof. apply filter_app. Qed.

(** A dispatcher call extends the trace without a model call and leaves
    the history alone. *)
Lemma call_function_frame (fn params : pyval) (w : world) :
  exists r evs,
    Manual.call_function env fn params w
    = (r, mkWorld (trace w ++ evs) (messages w)) /\
    Terms.models evs = [].
Proof.
  destruct (call_function_cases env fn params w)
    as [(text & H) | [(msg & H) | (s & op & Hfn & Hin & H)]]; rewrite H.
  - eexists. exists [EvDispatch fn params]. now split.
  - eexists. exists [EvDispatch fn params]. now split.
  - destruct (operation_frame env s op params
                (mkWorld (trace w ++ [EvDispatch fn params; EvOperation s params])
                         (messages w)) Hin)
      as (r & evs & Hop & Hevs).
    rewrite Hop. cbn [trace messages].
    exists r, ([EvDispatch fn params; EvOperation s params] ++ evs). split.
    + now rewrite app_assoc.
    + rewrite models_app. destruct Hevs as [-> | (kwargs & ->)]; reflexivity.
Qed.

(** So does the loop over the calls, however it ends. *)
Lemma execute_calls_frame (calls : list pyval) (w : world) :
  exists r evs,
    Agent.execute_calls env calls w = (r, mkWorld (trace w ++ evs) (messages w)) /\
    Terms.models evs = [].
Proof.
  revert w. induction calls as [| call calls IH]; intro w.
  - exists (Return []), []. destruct w. simpl. now rewrite app_nil_r.
  - cbn [Agent.execute_calls]. unfold bind at 1.
    destruct call as [| b | z | s | l | cd];
      try (eexists; exists []; destruct w; simpl; rewrite app_nil_r; now split).
    unfold py_get at 1, ret at 1. unfold bind at 1.
    unfold py_get_default at 1, ret at 1. unfold bind at 1.
    destruct (call_function_frame (Py.get cd "name")
                (Py.get_default cd "parameters" (PDict [])) w)
      as (r1 & evs1 & Hcall & Hm1).
    rewrite Hcall. destruct r1 as [result | e].
    + unfold bind at 1.
      destruct (IH (mkWorld (trace w ++ evs1) (messages w)))
        as (r2 & evs2 & Hrest & Hm2).
      rewrite Hrest. cbn [trace messages].
      destruct r2 as [results | e]; unfold ret.
      * eexists. exists (evs1 ++ evs2). split; [now rewrite app_assoc |].
        now rewrite models_app, Hm1, Hm2.
      * eexists. exists (evs1 ++ evs2). split; [now rewrite app_assoc |].
        now rewrite models_app, Hm1, Hm2.
    + eexists. exists evs1. now split.
Qed.

(** Every way a query can go: the first model call fails; or it replies
    without a call; or it replies with calls and the loop over them
    raises, or the loop ends and the second model call replies or
    fails. *)
Lemma process_query_cases (query : string) (w : world) :
  let history := Props.first_history query w in
  let context := Props.first_context query w in
  let p1 := Agent._create_prompt aenv query context in
  (exists text,
      Props.first_reply aenv query w = Agent.Fails text /\
      Agent.process_query env aenv query w
      = (Raise (ModelError text), mkWorld (trace w ++ [EvModel p1]) history)) \/
  (exists reply,
      Props.first_reply aenv query w = Agent.Replies reply /\
      ((Agent._extract_function_calls aenv reply = [] /\
        Agent.process_query env aenv query w
        = (Return reply,
           mkWorld (trace w ++ [EvModel p1])
                   (history ++ [mkMessage "assistant" reply]))) \/
       (Agent._extract_function_calls aenv reply <> [] /\
        exists mid,
          Terms.models mid = [] /\
          ((exists e,
               Agent.process_query env aenv query w
               = (Raise e, mkWorld (trace w ++ EvModel p1 :: mid) history)) \/
           (exists results,
               let p2 := Agent._create_prompt_with_results aenv query context results in
               (exists answer,
                   Agent.model aenv (trace w ++ EvModel p1 :: mid) p2
                   = Agent.Replies answer /\
                   Agent.process_query env aenv query w
                   = (Return answer,
                      mkWorld (trace w ++ EvModel p1 :: mid ++ [EvModel p2])
                              (history ++ [mkMessage "assistant" answer]))) \/
               (exists text,
                   Agent.model aenv (trace w ++ EvModel p1 :: mid) p2
                   = Agent.Fails text /\
                   Agent.process_query env aenv query w
                   = (Raise (ModelError text),
                      mkWorld (trace w ++ EvModel p1 :: mid ++ [EvModel p2])
                              history))))))).
Proof.
  cbv zeta.
  unfold Agent.process_query, bind, Agent.messages_append, Agent.self_messages,
    Agent.create_message, ret.
  cbn [trace messages].
  fold (Props.first_history query w). fold (Props.first_context query w).
  fold (Props.first_prompt aenv query w).
  fold (Props.first_reply aenv query w).
  destruct (Props.first_reply aenv query w) as [reply | text] eqn:Hreply.
  2: { left. exists text. split; reflexivity. }
  right. exists reply. split; [reflexivity |].
  destruct (Agent._extract_function_calls aenv reply) as [| call rest] eqn:Hcalls.
  - left. split; reflexivity.
  - right. split; [discriminate |].
    destruct (execute_calls_frame (call :: rest)
                (mkWorld (trace w ++ [EvModel (Props.first_prompt aenv query w)])
                         (Props.first_history query w)))
      as (r & mid & Hrun & Hmid).
    rewrite Hrun. cbn [trace messages].
    exists mid. split; [exact Hmid |].
    replace ((trace w ++ [EvModel (Props.first_prompt aenv query w)]) ++ mid)
      with (trace w ++ EvModel (Props.first_prompt aenv query w) :: mid)
      by (now rewrite <- app_assoc).
    destruct r as [results | e].
    + right. exists results.
      destruct (Agent.model aenv
                  (trace w ++ EvModel (Props.first_prompt aenv query w) :: mid)
                  (Agent._create_prompt_with_results aenv query
                     (Props.first_context query w) results))
        as [answer | text] eqn:Hsecond.
      * left. exists answer. split; [reflexivity |]. f_equal. f_equal.
        now rewrite <- app_assoc.
      * right. exists text. split; [reflexivity |]. f_equal. f_equal.
        now rewrite <- app_assoc.
    + left. exists e. reflexivity.
Qed.

(** X22: whatever the model replies, a query that returns adds the
    question and the answer to the history, in this order and nothing
    else; a query that raises adds the question only, so the history is
    left with a question that has no answer. *)
Theorem history_grows_by_the_exchange
    (query : string) (w w' : world) (r : outcome string) :
  Agent.process_query env aenv query w = (r, w') ->
  (forall answer,
      r = Return answer ->
      messages w'
      = messages w ++ [mkMessage "user" query; mkMessage "assistant" answer]) /\
  (forall e, r = Raise e -> messages w' = messages w ++ [mkMessage "user" query]).
Proof.
  intro Hrun.
  destruct (process_query_cases query w)
    as [(text & _ & H)
       | (reply & _ & [(_ & H)
                      | (_ & mid & _ & [(e & H)
                                       | (results & [(answer & _ & H)
                                                    | (text & _ & H)])])])];
    cbv zeta in H; rewrite H in Hrun; inversion Hrun; subst; clear Hrun;
    unfold Props.first_history; cbn [messages];
    split; intros x Hx; inversion Hx; subst;
    try reflexivity; now rewrite <- app_assoc.
Qed.


(** A query as one step of the session. *)
Lemma process_query_history (query : string) (w : world) :
  match Agent.process_query env aenv query w with
  | (Return answer, w') =>
      messages w'
      = messages w ++ [mkMessage "user" query; mkMessage "assistant" answer]
  | (Raise _, w') => messages w' = messages w ++ [mkMessage "user" query]
  end.
Proof.
  destruct (process_query_cases query w)
    as [(text & _ & H)
       | (reply & _ & [(_ & H)
                      | (_ & mid & _ & [(e & H)
                                       | (results & [(answer & _ & H)
                                                    | (text & _ & H)])])])];
    cbv zeta in H; rewrite H; unfold Props.first_history; cbn [messages];
    try reflexivity; now rewrite <- app_assoc.
Qed.

(** The loop of the session, query by query. *)
Lemma answer_all_history
    (queries printed : list string) (w w' : world) :
  AgentMain.answer_all env aenv queries w = (Return printed, w') ->
  exists answers,
    List.length answers = List.length queries /\
    messages w' = messages w ++ Terms.dialogue queries answers /\
    printed = Terms.transcript queries answers.
Proof.
  revert printed w w'. induction queries as [| query queries IH];
    intros printed w w' Hrun.
  - inversion Hrun; subst. exists []. simpl. now rewrite app_nil_r.
  - cbn [AgentMain.answer_all] in Hrun. unfold bind at 1 in Hrun.
    pose proof (process_query_history query w) as Hstep.
    destruct (Agent.process_query env aenv query w) as [[answer | e] w1];
      [| discriminate Hrun].
    unfold bind at 1 in Hrun.
    destruct (AgentMain.answer_all env aenv queries w1) as [[printed' | e] w2] eqn:Hrest;
      [| discriminate Hrun].
    unfold ret in Hrun. inversion Hrun; subst printed w'; clear Hrun.
    destruct (IH printed' w1 w2 Hrest) as (answers & Hlen & Hhistory & Hprinted).
    exists (answer :: answers). split; [simpl; congruence | split].
    + rewrite Hhistory, Hstep. simpl. now rewrite <- app_assoc.
    + simpl. now rewrite Hprinted.
Qed.

(** X24: a session that answers all its queries leaves a history that
    alternates question and answer, one pair for each query in the
    order asked, and has printed four entries for each pair; no earlier
    message is changed or removed. *)
Theorem session_history_alternates
    (queries printed : list string) (w w' : world) :
  AgentMain.answer_all env aenv queries w = (Return printed, w') ->
  exists answers,
    List.length answers = List.length queries /\
    messages w' = messages w ++ Terms.dialogue queries answers /\
    printed = Terms.transcript queries answers /\
    List.length (messages w') = List.length (messages w) + 2 * List.length queries /\
    List.length printed = 4 * List.length queries.
Proof.
  intro Hrun.
  destruct (answer_all_history queries printed w w' Hrun)
    as (answers & Hlen & Hhistory & Hprinted).
  exists answers. split; [exact Hlen | split; [exact Hhistory | split; [exact Hprinted |]]].
  assert (Hdialogue : forall qs ans,
             List.length ans = List.length qs ->
             List.length (Terms.dialogue qs ans) = 2 * List.length qs /\
             List.length (Terms.transcript qs ans) = 4 * List.length qs).
  { induction qs as [| q qs IHq]; intros [| a ans] Hl; simpl in *;
      try discriminate; [now split |].
    destruct (IHq ans) as [H2 H4]; [congruence |]. split; lia. }
  destruct (Hdialogue queries answers Hlen) as [H2 H4].
  rewrite Hhistory, Hprinted, length_app. split; lia.
Qed.

(** The example session starts from an empty history, so all of its
    history is the dialogue of the five example queries. *)
Corollary main_history (printed : list string) (w w' : world) :
  AgentMain.main env aenv w = (Return printed, w') ->
  exists answers,
    List.length answers = 5 /\
    messages w' = Terms.dialogue AgentMain.queries answers.
Proof.
  unfold AgentMain.main. intro Hrun.
  destruct (answer_all_history AgentMain.queries printed _ w' Hrun)
    as (answers & Hlen & Hhistory & _).
  exists answers. split; [exact Hlen | exact Hhistory].
Qed.

End DriverInvariants.

(** ** The further properties at the sample inputs *)

Module MoreWitnesses.

Import Samples.
Import MoreSamples.

(** The mixed column of the two-row sample survives the cleaning. *)
Lemma column_survives_iff_witness :
  (In flag_column (columns two_rows) /\
   Terms.all_missing (snd flag_column) = false /\
   Terms.all_sentinel (snd flag_column) = false) /\
  In flag_column (columns (Frame.sanitize two_rows)).
Proof.
  assert (H : In flag_column (columns two_rows) /\
              Terms.all_missing (snd flag_column) = false /\
              Terms.all_sentinel (snd flag_column) = false).
  { split; [simpl; right; left; reflexivity | split; reflexivity]. }
  split; [exact H |].
  exact (proj2 (column_survives_iff two_rows flag_column) H).
Defined.

(** The two-row sample stays well formed. *)
Lemma cleaning_commutes_and_is_idempotent_witness :
  Frame.well_formed two_rows = true /\
  Frame.well_formed (Frame.sanitize two_rows) = true.
Proof.
  split; [reflexivity |].
  apply (proj2 (proj2 (cleaning_commutes_and_is_idempotent two_rows))).
  reflexivity.
Defined.

(** A padded block loses its spaces, the no-break space and the
    ideographic space with them. *)
Example strip_of_padded_block :
  PyStr.strip padded_block = "{x}"%string /\
  Terms.Whitespace (" " ++ nbsp ++ " ")%string /\
  Terms.Whitespace (" " ++ ideographic_space ++ " ")%string.
Proof.
  split; [reflexivity | split].
  - apply Terms.made_of_one; [reflexivity |].
    apply Terms.made_of_two; [reflexivity |].
    apply Terms.made_of_one; [reflexivity | constructor].
  - apply Terms.made_of_one; [reflexivity |].
    apply Terms.made_of_three; [reflexivity |].
    apply Terms.made_of_one; [reflexivity | constructor].
Qed.

(** The block that does not decode is still a delimited block. *)
Lemma blocks_are_delimited_witness :
  In oops_block (Agent.findall reply_one_good_one_bad) /\
  ~ Props.mentions oops_block Agent.close_tag.
Proof.
  assert (H : In oops_block (Agent.findall reply_one_good_one_bad)).
  { change (In oops_block
              [ (String (Ascii.ascii_of_nat 10) site_call_text
                 ++ String (Ascii.ascii_of_nat 10) "")%string; oops_block ]).
    right. left. reflexivity. }
  split; [exact H |].
  exact (proj2 (blocks_are_delimited reply_one_good_one_bad oops_block H)).
Defined.

(** A reply without tags has no block and no pair of tags. *)
Lemma no_block_iff_no_tag_pair_witness :
  Agent.findall plain_reply = [] /\
  ~ exists a b c,
      plain_reply = (a ++ Agent.open_tag ++ b ++ Agent.close_tag ++ c)%string.
Proof.
  split; [reflexivity |].
  apply (proj1 (no_block_iff_no_tag_pair plain_reply)).
  reflexivity.
Defined.

(** The envelope of the sample site lookup is well shaped. *)
Lemma dispatcher_envelope_shape_witness :
  Manual.call_function (answering two_rows) (PStr "get_site_data") (PDict site_params) w0
  = (Return site_envelope, site_world) /\
  Terms.envelope_shape site_envelope.
Proof.
  split; [reflexivity |].
  apply (dispatcher_envelope_shape (answering two_rows)
           (PStr "get_site_data") (PDict site_params) w0 site_world site_envelope).
  reflexivity.
Defined.

(** Its rows have three cells for three column names. *)
Lemma dispatcher_envelope_is_rectangular_witness :
  Manual.call_function (answering two_rows) (PStr "get_site_data") (PDict site_params) w0
  = (Return site_envelope, site_world) /\
  Terms.rectangular site_envelope.
Proof.
  split; [reflexivity |].
  apply (dispatcher_envelope_is_rectangular (answering two_rows)
           (PStr "get_site_data") (PDict site_params) w0 site_world site_envelope).
  reflexivity.
Defined.

(** The dispatcher hands a number as parameters on to the site lookup. *)
Lemma dispatcher_passes_through_witness :
  In ("get_site_data"%string, Manual.get_site_data (answering two_rows))
     (Manual.functions (answering two_rows)) /\
  Manual.call_function (answering two_rows) (PStr "get_site_data") (PInt 42) w0
  = Manual.get_site_data (answering two_rows) (PInt 42)
      (mkWorld [ EvDispatch (PStr "get_site_data") (PInt 42);
                 EvOperation "get_site_data" (PInt 42) ] []).
Proof.
  assert (H : In ("get_site_data"%string, Manual.get_site_data (answering two_rows))
                 (Manual.functions (answering two_rows))).
  { simpl. left. reflexivity. }
  split; [exact H |].
  exact (dispatcher_passes_through (answering two_rows) "get_site_data"
           (Manual.get_site_data (answering two_rows)) (PInt 42) w0 H).
Defined.

(** Discharge measurements on the two-row sample report two records. *)
Lemma row_count_is_reported_witness :
  nwis (answering two_rows) (trace w0) two_sites_request = Table two_rows /\
  exists e rows,
    fst (Manual.get_discharge_measurements (answering two_rows)
           (PDict two_sites_params) w0) = Return e /\
    status e = "success"%string /\
    data e = Some rows /\
    List.length rows = 2 /\
    message e = Some "Retrieved 2 discharge measurements"%string.
Proof.
  split; [reflexivity |].
  apply (row_count_is_reported (answering two_rows)
           "get_discharge_measurements"
           (Manual.get_discharge_measurements (answering two_rows))
           "Retrieved " " discharge measurements" two_sites_params w0
           (snd (Manual.get_discharge_measurements (answering two_rows)
                   (PDict two_sites_params) w0))
           (fst (Manual.get_discharge_measurements (answering two_rows)
                   (PDict two_sites_params) w0))
           two_sites_request two_rows).
  - simpl. left. reflexivity.
  - reflexivity.
  - reflexivity.
  - reflexivity.
Defined.



(** Site information for the empty string of sites is fetched; for an
    output format alone it is not. *)
Lemma get_info_wants_one_filter_witness :
  snd (Manual.get_info (answering two_rows) (PDict blank_sites_params) w0)
  = Props.after_call w0 (mkCall "get_info" blank_sites_params) /\
  Manual.get_info (answering two_rows) (PDict output_only_params) w0
  = (Return (Manual.error_response "At least one of the parameters is required"), w0).
Proof.
  split.
  - apply (proj1 (get_info_wants_one_filter (answering two_rows) blank_sites_params w0)).
    reflexivity.
  - apply (proj2 (get_info_wants_one_filter (answering two_rows) output_only_params w0)).
    reflexivity.
Defined.

(** Statistics for two sites hand the service the string as given. *)
Lemma unpacked_mapping_is_forwarded_witness :
  In ("get_stats"%string, Manual.get_stats (answering two_rows))
     (Terms.unpacking (answering two_rows)) /\
  snd (Manual.get_stats (answering two_rows) (PDict two_sites_params) w0)
  = Props.after_call w0 (mkCall "get_stats" two_sites_params).
Proof.
  assert (H : In ("get_stats"%string, Manual.get_stats (answering two_rows))
                 (Terms.unpacking (answering two_rows))).
  { simpl. right. right. left. reflexivity. }
  split; [exact H |].
  apply (proj2 (unpacked_mapping_is_forwarded (answering two_rows) "get_stats"
                  (Manual.get_stats (answering two_rows)) two_sites_params w0 H)).
  - discriminate.
  - discriminate.
Defined.



(** Of the water-use sample only the year is shown. *)
Lemma water_use_hides_internal_columns_witness :
  column_names (mkEnvelope "success" (Some [[Num 2015]]) (Some ["year"%string])
                  (Some "Retrieved water use data"%string) None)
  = Some ["year"%string] /\
  ~ In "state_cd"%string ["year"%string] /\ ~ In "county_cd"%string ["year"%string].
Proof.
  split; [reflexivity |].
  apply (water_use_hides_internal_columns (answering water_use_table)
           (PDict water_use_params) w0
           (Props.after_call w0 (mkCall "get_water_use" water_use_params))
           (mkEnvelope "success" (Some [[Num 2015]]) (Some ["year"%string])
              (Some "Retrieved water use data"%string) None)
           ["year"%string]).
  - reflexivity.
  - reflexivity.
Defined.

(** Discharge measurements for two sites: operation and tool agree. *)
Lemma site_list_tools_agree_with_operations_witness :
  Py.is_str (Py.get two_sites_params "sites") || Py.truthy (Py.get two_sites_params "sites")
  = true /\
  Manual.get_discharge_measurements (answering two_rows) (PDict two_sites_params) w0
  = FastMCP.get_discharge_measurements (answering two_rows) (PStr "A,B") PNone PNone w0.
Proof.
  split; [reflexivity |].
  apply (proj1 (site_list_tools_agree_with_operations (answering two_rows)
                  "get_discharge_measurements"
                  (Manual.get_discharge_measurements (answering two_rows))
                  (FastMCP.get_discharge_measurements (answering two_rows))
                  two_sites_params w0 ltac:(simpl; tauto))).
  reflexivity.
Defined.

(** The site lookup on the sample that the cleaning empties: the
    operation reports an error, the tool a success. *)
Lemma site_lookup_tool_agrees_unless_emptied_witness :
  Py.truthy (Py.get site_params "site_code") = true /\
  fst (Manual.get_site_data (answering all_dropped) (PDict site_params) w0)
  = Return (Manual.error_response "No data found for site 09380000") /\
  fst (FastMCP.get_site_data (answering all_dropped) (PStr "09380000") w0)
  = Return (mkEnvelope "success" (Some [ []; [] ]) (Some [])
              (Some "Successfully retrieved data for site 09380000"%string) None) /\
  Manual.get_site_data (answering all_dropped) (PDict site_params) w0
  <> FastMCP.get_site_data (answering all_dropped) (PStr "09380000") w0.
Proof.
  split; [reflexivity |].
  destruct (site_lookup_tool_agrees_unless_emptied (answering all_dropped)
              site_params w0 eq_refl) as [_ Hdiffer].
  destruct (Hdiffer all_dropped eq_refl) as (Hop & Htool & Hemptied).
  change (Py.get site_params "site_code") with (PStr "09380000") in Htool.
  split; [rewrite Hop; reflexivity | split; [rewrite Htool; reflexivity |]].
  apply (Hemptied eq_refl eq_refl).
Defined.

(** A query with one call: question and answer join the history. *)
Lemma history_grows_by_the_exchange_witness :
  messages (snd (Agent.process_query (answering two_rows)
                   (replying reply_one_good_one_bad) "q" w0))
  = [ mkMessage "user" "q"; mkMessage "assistant" reply_one_good_one_bad ].
Proof.
  apply (proj1 (history_grows_by_the_exchange (answering two_rows)
                  (replying reply_one_good_one_bad) "q" w0
                  (snd (Agent.process_query (answering two_rows)
                          (replying reply_one_good_one_bad) "q" w0))
                  (fst (Agent.process_query (answering two_rows)
                          (replying reply_one_good_one_bad) "q" w0))
                  eq_refl) reply_one_good_one_bad).
  reflexivity.
Defined.


(** The two failures of the model at the samples: at the first call
    nothing is dispatched; at the second the calls have been made and
    the question stays without an answer. *)
Example first_model_failure_is_raised :
  Agent.process_query (answering two_rows) unreachable_model "q" w0
  = (Raise (ModelError "connection refused"),
     mkWorld [EvModel (Props.first_prompt unreachable_model "q" w0)]
             [mkMessage "user" "q"]).
Proof. reflexivity. Qed.

Example second_model_failure_is_raised :
  let run := Agent.process_query (answering two_rows)
               (replying_once reply_one_good_one_bad) "q" w0 in
  fst run = Raise (ModelError "overloaded") /\
  List.length (Terms.models (trace (snd run))) = 2 /\
  List.length (Props.dispatches (trace (snd run))) = 1 /\
  messages (snd run) = [mkMessage "user" "q"].
Proof. cbv zeta. repeat split; vm_compute; reflexivity. Qed.

(** Two questions answered without a call. *)
Lemma session_history_alternates_witness :
  exists answers,
    List.length answers = 2 /\
    messages (snd (AgentMain.answer_all (answering two_rows) (replying plain_reply)
                     ["first"; "second"]%string w0))
    = Terms.dialogue ["first"; "second"]%string answers.
Proof.
  destruct (session_history_alternates (answering two_rows) (replying plain_reply)
              ["first"; "second"]%string
              (Terms.transcript ["first"; "second"]%string [plain_reply; plain_reply])
              w0
              (snd (AgentMain.answer_all (answering two_rows) (replying plain_reply)
                      ["first"; "second"]%string w0))
              eq_refl)
    as (answers & Hlen & Hhistory & _).
  exists answers. split; [exact Hlen | exact Hhistory].
Defined.

End MoreWitnesses.
